(** * RAG notebook (Qdrant + SentenceTransformers + Gemini): a shallow embedding

    The notebook [rag-qdrant-notebook.ipynb] is a linear script of code cells.
    Each cell is embedded as a function on the notebook's state: the global
    namespace of the kernel ([Globals]) and the outside world it talks to
    ([World]: process environment, the [./pdfs] folder, the Qdrant server,
    standard input and a trace of everything printed or requested).  A cell
    returns or raises ([Outcome]); a run executes the cells in order and stops
    at the first one that raises.

    Strings are byte strings; [lower] folds the ASCII letters, which is what
    decides every comparison the notebook makes (all of them are against ASCII
    literals).

    The third-party services are not code of the notebook.  The PDF loader
    with its text splitter, the sentence encoder, the similarity of the
    metric, the LLM and [load_dotenv] are parameters ([Services]): nothing is
    assumed about what they compute.  The Qdrant server is a finite map of
    collections with the operations section 4.2 of the specification gives
    it.  The loader either returns the chunks of a file or raises (an entry
    that is a directory, a file that is not a PDF); the exception is not
    caught anywhere in the notebook and stops the run in the ingestion cell.
    Network failures of the encoder, the Qdrant server and the LLM are outside
    the model, and the LLM is one fixed reply per prompt: its sampling is not
    modelled, so nothing here speaks about which answer text comes back. *)

From Stdlib Require Import Ascii QArith Sorting.Sorted Sorting.Permutation.
From stdpp Require Import gmap strings list fin_maps pretty sorting.



(** ** Python string primitives *)

Module Py.

(** [c.lower()] on one character: [A-Z] move to [a-z], everything else is
    kept. *)
Definition lower_ascii (c : ascii) : ascii :=
  let n := Ascii.N_of_ascii c in
  if ((65 <=? n) && (n <=? 90))%N then Ascii.ascii_of_N (n + 32) else c.

(** [s.lower()] *)
Fixpoint lower (s : string) : string :=
  match s with
  | EmptyString => EmptyString
  | String c s' => String (lower_ascii c) (lower s')
  end.

(** [s.endswith(suffix)] *)
Definition endswith (s suffix : string) : bool :=
  let n := String.length s in
  let m := String.length suffix in
  (m <=? n)%nat && String.eqb (String.substring (n - m) m s) suffix.

(** The truth value of an optional string: [None] and [""] are false. *)
Definition truthy (v : option string) : bool :=
  match v with
  | None | Some EmptyString => false
  | Some _ => true
  end.

(** [x in xs] for a list of strings *)
Definition contains (x : string) (xs : list string) : bool :=
  existsb (String.eqb x) xs.

(** [sep.join(xs)] *)
Fixpoint join (sep : string) (xs : list string) : string :=
  match xs with
  | [] => ""
  | [x] => x
  | x :: xs' => x +:+ sep +:+ join sep xs'
  end.

(** [c * n] for a one-character string *)
Fixpoint repeat_char (c : ascii) (n : nat) : string :=
  match n with
  | O => ""
  | S n' => String c (repeat_char c n')
  end.

(** *** [str.format] with plain named fields

    [string.Formatter.parse] cuts the format string into literal text and
    replacement fields; [vformat] then looks each field up in the keyword
    arguments.  The notebook's template only has plain [{name}] fields, so
    the doubled-brace escapes, conversions and format specs are not
    modelled: a brace that is not part of a plain field is a [ValueError]
    ([None]), as is a field that is not closed, and a field without a
    keyword argument is a [KeyError] ([None]). *)
Inductive Piece :=
| Literal (text : string)
| Field (name : string).

Definition cons_literal (c : ascii) (ps : list Piece) : list Piece :=
  match ps with
  | Literal text :: ps' => Literal (String c text) :: ps'
  | _ => Literal (String c "") :: ps
  end.

Fixpoint parse (t : string) (field : option string) : option (list Piece) :=
  match t, field with
  | EmptyString, None => Some []
  | EmptyString, Some _ => None
  | String c t', None =>
      if Ascii.eqb c "{" then parse t' (Some "")
      else if Ascii.eqb c "}" then None
      else cons_literal c <$> parse t' None
  | String c t', Some name =>
      if Ascii.eqb c "{" then None
      else if Ascii.eqb c "}" then cons (Field name) <$> parse t' None
      else parse t' (Some (name +:+ String c ""))
  end.

Fixpoint get (name : string) (kwargs : list (string * string)) : option string :=
  match kwargs with
  | [] => None
  | (k, v) :: kwargs' => if String.eqb k name then Some v else get name kwargs'
  end.

Fixpoint vformat (ps : list Piece) (kwargs : list (string * string)) : option string :=
  match ps with
  | [] => Some ""
  | Literal text :: ps' => String.app text <$> vformat ps' kwargs
  | Field name :: ps' =>
      match get name kwargs with
      | Some v => String.app v <$> vformat ps' kwargs
      | None => None
      end
  end.

Definition format (t : string) (kwargs : list (string * string)) : option string :=
  match parse t None with
  | Some ps => vformat ps kwargs
  | None => None
  end.

End Py.

(** ** Data model *)

(** A chunk as LangChain hands it over: the text and where it comes from. *)
Record Document := mkDocument {
  page_content : string;
  source : string;
  page : nat
}.

(** [qdrant_client.http.models.Distance] *)
Inductive Distance := COSINE | EUCLID | DOT.

(** One stored point: the embedding and the chunk it was computed from. *)
Record PointStruct := mkPoint {
  vector : list Q;
  payload : Document
}.

(** A collection of the vector store: [VectorParams(size, distance)] and the
    points upserted so far. *)
Record Collection := mkCollection {
  size : nat;
  distance : Distance;
  points : list PointStruct
}.

(** What [RetrievalQA.from_chain_type] is built from in cell 9: the retriever
    (the collection of the vector store and [search_kwargs]) and the prompt
    template. *)
Record RetrievalQA := mkRetrievalQA {
  retriever_collection : string;
  search_k : nat;
  chain_prompt : string
}.

(** The dictionary a chain call returns ([return_source_documents=True]). *)
Record ChainResult := mkChainResult {
  query : string;
  result : string;
  source_documents : list Document
}.

Inductive Exn :=
| TypeError (msg : string)
| NameError (name : string)
| EOFError
| ValueError (msg : string)
| PdfReadError (msg : string)
| UnexpectedResponse (msg : string).

(** Everything the notebook does to the outside, in the order it happens. *)
Inductive Event :=
| Print (line : string)
| Input (prompt : string)
| Makedirs (path : string)
| Configure (api_key : string)
| DeleteCollection (name : string)
| CreateCollection (name : string) (size : nat) (distance : Distance)
| LoadAndSplit (path : string) (chunk_size chunk_overlap : nat)
| EmbedDocuments (texts : list string)
| Upsert (name : string) (count : nat)
| EmbedQuery (text : string)
| Search (name : string) (limit : nat)
| Generate (prompt : string).

(** ** The vector store *)

Module Qdrant.

(** Modelled from the spec: the Qdrant server and its client are a remote
    service, not code of the notebook.  The store is a finite map from
    collection names to collections (section 3 of the spec);
    [get_collections] lists the names. *)
Definition get_collections (st : gmap string Collection) : list string :=
  (map_to_list st).*1.

(** Modelled from the spec: deleting a collection removes it together with
    its points. *)
Definition delete_collection (name : string) (st : gmap string Collection)
  : gmap string Collection :=
  delete name st.

(** Modelled from the spec: a created collection has the declared dimension
    and metric and no points; the server refuses to create a collection
    whose name is taken. *)
Definition create_collection (name : string) (sz : nat) (d : Distance)
    (st : gmap string Collection) : Exn + gmap string Collection :=
  match st !! name with
  | Some _ => inl (UnexpectedResponse "collection already exists")
  | None => inr (<[name := mkCollection sz d []]> st)
  end.

(** Modelled from the spec: [upsert] appends the records to the collection
    (4.2); the store rejects a vector whose length is not the collection's
    dimension (3), and an unknown collection. *)
Definition upsert (name : string) (pts : list PointStruct)
    (st : gmap string Collection) : Exn + gmap string Collection :=
  match st !! name with
  | None => inl (UnexpectedResponse "collection not found")
  | Some c =>
      if forallb (fun p => length (vector p) =? size c)%nat pts
      then inr (<[name := mkCollection (size c) (distance c) (points c ++ pts)]> st)
      else inl (UnexpectedResponse "wrong vector dimension")
  end.

(** Modelled from the spec: the store keeps the points in descending order
    of similarity when it answers a query (4.2).  The order among exact ties
    is the store's own; here the point met earlier stays first. *)
Fixpoint insert_desc (score : PointStruct -> Q) (p : PointStruct)
    (l : list PointStruct) : list PointStruct :=
  match l with
  | [] => [p]
  | x :: l' =>
      if Qle_bool (score p) (score x) then x :: insert_desc score p l'
      else p :: x :: l'
  end.

Fixpoint sort_desc (score : PointStruct -> Q) (l : list PointStruct)
  : list PointStruct :=
  match l with
  | [] => []
  | p :: l' => insert_desc score p (sort_desc score l')
  end.

(** Modelled from the spec: the similarity search of the Qdrant server is
    not code of the notebook.  [query(vector, k)] returns up to [k] nearest
    records ordered by descending similarity under the metric of the
    collection (4.2); [score] is that similarity to the query vector. *)
Definition search (score : PointStruct -> Q) (limit : nat)
    (c : Collection) : list PointStruct :=
  take limit (sort_desc score (points c)).

End Qdrant.

(** ** The notebook's state *)

(** The kernel's global namespace: [None] is a name that is not bound (for
    [GOOGLE_API_KEY] also the value [None] that [os.getenv] returns when the
    variable is not set).  These are the names that one cell binds and a
    later cell reads.  The names the last cell binds for itself and nothing
    reads afterwards ([ask_question], [interactive_qa_session],
    [try_example], [example_question], [result]) are not tracked, so no
    statement below speaks about the namespace as a whole. *)
Record Globals := mkGlobals {
  GOOGLE_API_KEY : option string;
  embedding_dimension : option nat;
  collection_name : option string;
  documents : option (list Document);
  pdf_files : option nat;
  vectorstore : option string;
  prompt : option string;
  qa_chain : option RetrievalQA
}.

(** The outside world: the process environment, the [./pdfs] folder ([None]
    when it does not exist, else what [os.listdir] returns), the Qdrant
    server, the lines waiting on standard input, and the trace. *)
Record World := mkWorld {
  environ : gmap string string;
  pdfs : option (list string);
  qdrant : gmap string Collection;
  stdin : list string;
  trace : list Event
}.

Record State := mkState {
  globals : Globals;
  world : World
}.

Definition fresh_globals : Globals :=
  mkGlobals None None None None None None None None.

Definition with_globals (f : Globals -> Globals) (s : State) : State :=
  mkState (f (globals s)) (world s).

Definition with_world (f : World -> World) (s : State) : State :=
  mkState (globals s) (f (world s)).

Definition set_GOOGLE_API_KEY (v : option string) (g : Globals) : Globals :=
  mkGlobals v (embedding_dimension g) (collection_name g) (documents g)
    (pdf_files g) (vectorstore g) (prompt g) (qa_chain g).

Definition set_embedding_dimension (v : nat) (g : Globals) : Globals :=
  mkGlobals (GOOGLE_API_KEY g) (Some v) (collection_name g) (documents g)
    (pdf_files g) (vectorstore g) (prompt g) (qa_chain g).

Definition set_collection_name (v : string) (g : Globals) : Globals :=
  mkGlobals (GOOGLE_API_KEY g) (embedding_dimension g) (Some v) (documents g)
    (pdf_files g) (vectorstore g) (prompt g) (qa_chain g).

Definition set_documents (v : list Document) (g : Globals) : Globals :=
  mkGlobals (GOOGLE_API_KEY g) (embedding_dimension g) (collection_name g)
    (Some v) (pdf_files g) (vectorstore g) (prompt g) (qa_chain g).

Definition set_pdf_files (v : nat) (g : Globals) : Globals :=
  mkGlobals (GOOGLE_API_KEY g) (embedding_dimension g) (collection_name g)
    (documents g) (Some v) (vectorstore g) (prompt g) (qa_chain g).

Definition set_vectorstore (v : string) (g : Globals) : Globals :=
  mkGlobals (GOOGLE_API_KEY g) (embedding_dimension g) (collection_name g)
    (documents g) (pdf_files g) (Some v) (prompt g) (qa_chain g).

Definition set_prompt (v : string) (g : Globals) : Globals :=
  mkGlobals (GOOGLE_API_KEY g) (embedding_dimension g) (collection_name g)
    (documents g) (pdf_files g) (vectorstore g) (Some v) (qa_chain g).

Definition set_qa_chain (v : RetrievalQA) (g : Globals) : Globals :=
  mkGlobals (GOOGLE_API_KEY g) (embedding_dimension g) (collection_name g)
    (documents g) (pdf_files g) (vectorstore g) (prompt g) (Some v).

Definition set_environ (v : gmap string string) (w : World) : World :=
  mkWorld v (pdfs w) (qdrant w) (stdin w) (trace w).

Definition set_pdfs (v : option (list string)) (w : World) : World :=
  mkWorld (environ w) v (qdrant w) (stdin w) (trace w).

Definition set_qdrant (v : gmap string Collection) (w : World) : World :=
  mkWorld (environ w) (pdfs w) v (stdin w) (trace w).

Definition set_stdin (v : list string) (w : World) : World :=
  mkWorld (environ w) (pdfs w) (qdrant w) v (trace w).

Definition emits (es : list Event) (w : World) : World :=
  mkWorld (environ w) (pdfs w) (qdrant w) (stdin w) (trace w ++ es).

Definition emit (e : Event) (w : World) : World := emits [e] w.

(** ** Cells as state transformers that may raise *)

Inductive Outcome (A : Type) :=
| Ok (a : A) (s : State)
| Raised (e : Exn) (s : State).
Arguments Ok {A} a s.
Arguments Raised {A} e s.

Definition M (A : Type) : Type := State -> Outcome A.

Definition ret {A} (a : A) : M A := fun s => Ok a s.

Definition bind {A B} (m : M A) (k : A -> M B) : M B :=
  fun s => match m s with
           | Ok a s' => k a s'
           | Raised e s' => Raised e s'
           end.

Definition raise {A} (e : Exn) : M A := fun s => Raised e s.

Declare Scope cell_scope.
Delimit Scope cell_scope with cell.
Notation "x <- m ;; k" := (bind m (fun x => k))
  (at level 100, m at next level, right associativity) : cell_scope.
Notation "m ;; k" := (bind m (fun _ => k))
  (at level 100, right associativity) : cell_scope.
Open Scope cell_scope.

Definition read_globals : M Globals := fun s => Ok (globals s) s.
Definition read_world : M World := fun s => Ok (world s) s.
Definition assign (f : Globals -> Globals) : M unit := fun s => Ok tt (with_globals f s).
Definition act (f : World -> World) : M unit := fun s => Ok tt (with_world f s).

(** [print(line)] *)
Definition print (line : string) : M unit := act (emit (Print line)).

(** [input(prompt)]: the next line of standard input; [EOFError] at its end. *)
Definition input (prompt : string) : M string :=
  w <- read_world ;;
  act (emit (Input prompt)) ;;
  match stdin w with
  | [] => raise EOFError
  | line :: rest => act (set_stdin rest) ;; ret line
  end.

(** A name of the global namespace that has to be bound. *)
Definition bound {A} (x : string) (v : Globals -> option A) : M A :=
  g <- read_globals ;;
  match v g with
  | Some a => ret a
  | None => raise (NameError x)
  end.

(** The final state of a cell, whether it returned or raised. *)
Definition final {A} (o : Outcome A) : State :=
  match o with Ok _ s => s | Raised _ s => s end.

Definition raised {A} (o : Outcome A) : bool :=
  match o with Ok _ _ => false | Raised _ _ => true end.

(** ** The notebook's constants *)

Definition newline : string := String (Ascii.ascii_of_nat 10) "".

(** ["=" * 50] *)
Definition rule : string := Py.repeat_char "=" 50.

Definition folder_path : string := "./pdfs".
Definition chunk_size : nat := 1000.
Definition chunk_overlap : nat := 200.

(** [search_kwargs={"k": 3}] *)
Definition k : nat := 3.

(** The sentinels of the interactive loop: [['exit', 'quit', 'q']]. *)
Definition sentinels : list string := ["exit"; "quit"; "q"].

(** The triple-quoted [template] of cell 8, line by line; the lines are
    joined by newlines and the text ends with one (the last, empty line). *)
Definition template : string :=
  Py.join newline
    [
     "You are an expert assistant. Use the following context to answer the user's question.";
     "";
     "Context:";
     "{context}";
     "";
     "Question:";
     "{question}";
     "";
     "Answer:";
     "1. Summary:  ";
     "   Provide a succinct explanatory summary (1–4 sentences).";
     "";
     "2. Key Points:  ";
     "   List the main supporting details in bullet form.";
     "";
     "Example format:";
     "";
     "1. Summary:  ";
     "   The primary purpose of vector databases is to store and query dense vector embeddings for similarity search.";
     "";
     "2. Key Points:  ";
     "   - Vector databases offer fully managed services, eliminating infrastructure overhead.  ";
     "   - They support cosine and dot-product similarity metrics for fast nearest-neighbor retrieval.  ";
     "   - They integrate seamlessly with popular embedding libraries like SentenceTransformer.  ";
     "   - They provide automatic indexing to scale to millions of vectors.";
     "";
     "Now, answer the question below following this format:";
     "{question}";
     ""
    ].

Definition not_ready : string :=
  "RAG chain not created. Please run previous cells successfully first.".

Definition example_question : string :=
  "What is the Anti-Corruption Layer (ACL) pattern".

(** ** The cells *)

(** The services the notebook calls and does not define. *)
Class Services := {
  (** [load_dotenv()]: what the [.env] file adds to the process environment. *)
  load_dotenv : gmap string string -> gmap string string;
  (** [SentenceTransformerEmbeddings(model_name="all-MiniLM-L6-v2")]: the
      dimension the model reports and the vector it computes for a text. *)
  get_sentence_embedding_dimension : nat;
  embed : string -> list Q;
  (** The similarity of the collection's metric between the question's vector
      and a stored one. *)
  similarity : list Q -> list Q -> Q;
  (** [PyPDFLoader(path).load_and_split(text_splitter=
      CharacterTextSplitter(chunk_size, chunk_overlap))]: the chunks of the
      file, or the exception the loader raises on an entry it cannot read
      ([ValueError] for a path that is not a file, a [pypdf] error for a file
      that is not a PDF). *)
  load_and_split : string -> nat -> nat -> Exn + list Document;
  (** The reply of [ChatGoogleGenerativeAI] to a rendered prompt. *)
  llm : string -> string;
  (** [f"{elapsed_time:.2f}"]: the wall-clock reading of the upload. *)
  elapsed_time : string
}.

Section Notebook.

Context {services : Services}.

(** Cell 3, "Configure Environment". *)
Definition configure_environment : M unit :=
  act (fun w => set_environ (load_dotenv (environ w)) w) ;;
  w <- read_world ;;
  (* GOOGLE_API_KEY = os.getenv("GOOGLE_API_KEY") *)
  let key := environ w !! "GOOGLE_API_KEY" in
  assign (set_GOOGLE_API_KEY key) ;;
  (* if not GOOGLE_API_KEY: pass *)
  (if negb (Py.truthy key) then ret tt else ret tt) ;;
  (* os.environ["GOOGLE_API_KEY"] = GOOGLE_API_KEY *)
  match key with
  | None => raise (TypeError "str expected, not NoneType")
  | Some v =>
      act (fun w => set_environ (<["GOOGLE_API_KEY" := v]> (environ w)) w) ;;
      (* genai.configure(api_key=GOOGLE_API_KEY) *)
      act (emit (Configure v)) ;;
      print "✅ Google API key configured"
  end.

(** Cell 4, "Set Up Embedding Model". *)
Definition setup_embeddings : M unit :=
  assign (set_embedding_dimension get_sentence_embedding_dimension) ;;
  dim <- bound "embedding_dimension" embedding_dimension ;;
  print ("✅ Encoder ready, dim = " +:+ pretty dim).

(** Cell 5, "Connect to Qdrant and Create Collection", from the listing of
    the collections on: delete the collection when its name is listed, then
    create it with the dimension bound in cell 4 and the cosine metric. *)
Definition ensure_collection (collection_name : string) : M unit :=
  w <- read_world ;;
  let collection_names := Qdrant.get_collections (qdrant w) in
  (if Py.contains collection_name collection_names then
     act (fun w => set_qdrant (Qdrant.delete_collection collection_name (qdrant w)) w) ;;
     act (emit (DeleteCollection collection_name)) ;;
     print ("🗑️ Deleted existing collection: " +:+ collection_name)
   else ret tt) ;;
  dim <- bound "embedding_dimension" embedding_dimension ;;
  w <- read_world ;;
  match Qdrant.create_collection collection_name dim COSINE (qdrant w) with
  | inl e => raise e
  | inr st =>
      act (set_qdrant st) ;;
      act (emit (CreateCollection collection_name dim COSINE)) ;;
      print ("✅ Created new Qdrant collection: " +:+ collection_name) ;;
      print "🌐 Qdrant dashboard available at: http://localhost:6333/dashboard"
  end.

Definition connect_qdrant : M unit :=
  assign (set_collection_name "pdf_documents") ;;
  collection_name <- bound "collection_name" collection_name ;;
  ensure_collection collection_name.

(** The [for fname in os.listdir(folder_path)] loop of cell 6.  It updates
    the counter [pdf_files] and the list [documents] of the namespace as it
    goes; an exception of the loader leaves the loop, and the cell, at once. *)
Fixpoint load_loop (names : list string) : M unit :=
  match names with
  | [] => ret tt
  | fname :: names' =>
      if negb (Py.endswith (Py.lower fname) ".pdf") then
        load_loop names'
      else
        (* pdf_files += 1 *)
        pdf_files <- bound "pdf_files" pdf_files ;;
        assign (set_pdf_files (pdf_files + 1)) ;;
        let path := folder_path +:+ "/" +:+ fname in
        print ("Loading " +:+ fname +:+ "...") ;;
        act (emit (LoadAndSplit path chunk_size chunk_overlap)) ;;
        match load_and_split path chunk_size chunk_overlap with
        | inl e => raise e
        | inr pages =>
            (* documents.extend(pages) *)
            documents <- bound "documents" documents ;;
            assign (set_documents (documents ++ pages)) ;;
            load_loop names'
        end
  end.

(** Cell 6, "Load and Split PDF Documents". *)
Definition load_documents : M unit :=
  w <- read_world ;;
  match pdfs w with
  | None =>
      act (set_pdfs (Some [])) ;;
      act (emit (Makedirs folder_path)) ;;
      print ("Created directory: " +:+ folder_path) ;;
      print "Please add your PDF files to this directory and run this cell again."
  | Some listing =>
      assign (set_documents []) ;;
      assign (set_pdf_files 0) ;;
      load_loop listing ;;
      pdf_files <- bound "pdf_files" pdf_files ;;
      documents <- bound "documents" documents ;;
      if (pdf_files =? 0)%nat then
        print ("No PDF files found in " +:+ folder_path
               +:+ ". Please add PDF files and run this cell again.")
      else
        print ("✅ Loaded and split " +:+ pretty (length documents)
               +:+ " chunks from " +:+ pretty pdf_files +:+ " PDF files.")
  end.

(** [Qdrant.from_documents(documents, embeddings, url, collection_name)]:
    embed every chunk and upsert the records in one operation (4.4 of the
    spec); the value is the handle on the collection. *)
Definition from_documents (documents : list Document) (collection_name : string)
  : M string :=
  let texts := page_content <$> documents in
  act (emit (EmbedDocuments texts)) ;;
  let records := (fun d => mkPoint (embed (page_content d)) d) <$> documents in
  w <- read_world ;;
  match Qdrant.upsert collection_name records (qdrant w) with
  | inl e => raise e
  | inr st =>
      act (set_qdrant st) ;;
      act (emit (Upsert collection_name (length records))) ;;
      ret collection_name
  end.

(** Cell 7, "Create Vector Store and Add Documents". *)
Definition index_documents : M unit :=
  g <- read_globals ;;
  (* 'documents' in locals() and len(documents) > 0 *)
  if match documents g with
     | Some documents => (0 <? length documents)%nat
     | None => false
     end
  then
    documents <- bound "documents" documents ;;
    print "Creating embeddings and uploading to Qdrant..." ;;
    collection_name <- bound "collection_name" collection_name ;;
    vectorstore <- from_documents documents collection_name ;;
    assign (set_vectorstore vectorstore) ;;
    print ("✅ Uploaded " +:+ pretty (length documents)
           +:+ " document chunks to Qdrant in " +:+ elapsed_time +:+ " seconds") ;;
    print ("🌐 View your collection at: http://localhost:6333/dashboard/#/collections/"
           +:+ collection_name)
  else
    print "No documents loaded. Please run the previous cell successfully first.".

(** Cell 8, "Set Up the LLM and Prompt Template".  The client object
    [ChatGoogleGenerativeAI(...)] is built here; what it replies is [llm]. *)
Definition setup_prompt : M unit :=
  (* prompt = PromptTemplate(input_variables=["context", "question"],
                             template=template) *)
  assign (set_prompt template) ;;
  print "✅ Prompt template created".

(** Cell 9, "Create the RAG Chain". *)
Definition create_chain : M unit :=
  g <- read_globals ;;
  match vectorstore g with
  | Some vectorstore =>
      prompt <- bound "prompt" prompt ;;
      assign (set_qa_chain (mkRetrievalQA vectorstore k prompt)) ;;
      print "✅ RAG chain with Gemini is ready."
  | None =>
      print "Vectorstore not created. Please run previous cells successfully first."
  end.

(** [qa_chain({"query": question})]: the retriever embeds the question and
    asks the store for the [search_k] nearest chunks; the "stuff" chain
    joins their texts, renders the prompt and calls the LLM. *)
Definition call_chain (chain : RetrievalQA) (question : string) : M ChainResult :=
  act (emit (EmbedQuery question)) ;;
  let v := embed question in
  act (emit (Search (retriever_collection chain) (search_k chain))) ;;
  w <- read_world ;;
  match qdrant w !! retriever_collection chain with
  | None => raise (UnexpectedResponse "collection not found")
  | Some c =>
      let hits := Qdrant.search (fun p => similarity v (vector p)) (search_k chain) c in
      let docs := payload <$> hits in
      let context := Py.join (newline +:+ newline) (page_content <$> docs) in
      match Py.format (chain_prompt chain)
              [("context", context); ("question", question)] with
      | None => raise (ValueError "prompt template")
      | Some text =>
          act (emit (Generate text)) ;;
          ret (mkChainResult question (llm text) docs)
      end
  end.

(** Cell 10, [ask_question]. *)
Definition ask_question (question : string) : M (option ChainResult) :=
  g <- read_globals ;;
  match qa_chain g with
  | None =>
      print not_ready ;;
      ret None
  | Some chain =>
      result' <- call_chain chain question ;;
      print (newline +:+ rule) ;;
      print ("QUESTION: " +:+ question) ;;
      print rule ;;
      print (newline +:+ "ANSWER:") ;;
      print (result result') ;;
      ret (Some result')
  end.

(** The [while True] loop of [interactive_qa_session].  Every iteration
    reads one line, so the loop is unrolled along the lines that are waiting
    on standard input; when they are used up [input] raises [EOFError]. *)
Fixpoint qa_loop (lines : list string) : M unit :=
  match lines with
  | [] =>
      _ <- input (newline +:+ "Enter your question: ") ;;
      ret tt
  | _ :: lines' =>
      user_question <- input (newline +:+ "Enter your question: ") ;;
      if Py.contains (Py.lower user_question) sentinels then
        print (newline +:+ "Ending Q&A session. Goodbye!")
      else
        _ <- ask_question user_question ;;
        qa_loop lines'
  end.

(** Cell 10, [interactive_qa_session]. *)
Definition interactive_qa_session : M unit :=
  print (newline +:+ rule) ;;
  print "INTERACTIVE Q&A SESSION" ;;
  print "Type 'exit', 'quit', or 'q' to end the session" ;;
  print (rule +:+ newline) ;;
  w <- read_world ;;
  qa_loop (stdin w).

(** Cell 10, "Start the interactive session".  The cell's own top-level
    names ([try_example], [example_question], [result]) are values of this
    function; as entries of the kernel's namespace they are not tracked (see
    [Globals]). *)
Definition start_session : M unit :=
  g <- read_globals ;;
  match qa_chain g with
  | Some _ => interactive_qa_session
  | None =>
      print not_ready ;;
      try_example <- input "Would you like to try an example question anyway? (y/n): " ;;
      if Py.contains (Py.lower try_example) ["y"; "yes"] then
        _ <- ask_question example_question ;;
        ret tt
      else ret tt
  end.

(** The notebook from its first cell up to the indexing step, and as a
    whole: a cell that raises stops the run. *)
Definition setup : M unit :=
  configure_environment ;;
  setup_embeddings ;;
  connect_qdrant ;;
  load_documents ;;
  index_documents ;;
  setup_prompt ;;
  create_chain.

Definition notebook : M unit :=
  setup ;;
  start_session.

(** *** The two states of the answer pipeline

    The notebook has no state variable: it tests whether the name
    [qa_chain] is bound.  [Uninitialized] is a namespace without the chain;
    [Ready] are the states a run reaches once cell 9 has bound it, and the
    states the interactive session moves through from there. *)
Definition Uninitialized (s : State) : Prop :=
  qa_chain (globals s) = None.

Inductive Ready : State -> Prop :=
| Ready_setup w s :
    setup (mkState fresh_globals w) = Ok tt s ->
    is_Some (qa_chain (globals s)) ->
    Ready s
| Ready_print s line :
    Ready s -> Ready (with_world (emit (Print line)) s)
| Ready_input s prompt line s' :
    Ready s -> input prompt s = Ok line s' -> Ready s'
| Ready_ask s question r s' :
    Ready s -> ask_question question s = Ok r s' -> Ready s'.

End Notebook.

(** ** Vocabulary of the properties *)

(** A cell run [n] times in succession. *)
Fixpoint repeat_cell (n : nat) (c : M unit) : M unit :=
  match n with
  | O => ret tt
  | S n' => c ;; repeat_cell n' c
  end.

Definition is_substring (a b : string) : Prop :=
  exists pre post, b = pre +:+ a +:+ post.

(** Two strings are equal up to the case of their letters. *)
Definition eq_ignore_case (a b : string) : Prop :=
  Py.lower a = Py.lower b.

Definition is_sentinel (line : string) : Prop :=
  exists t, In t sentinels /\ eq_ignore_case line t.

(** The questions handed to the answer pipeline, read off a trace: the
    retriever's first step is to embed the question. *)
Fixpoint questions (events : list Event) : list string :=
  match events with
  | [] => []
  | EmbedQuery q :: events' => q :: questions events'
  | _ :: events' => questions events'
  end.

(** The requests of the answer pipeline: embedding, retrieval, LLM. *)
Definition is_pipeline_call (e : Event) : bool :=
  match e with
  | EmbedQuery _ | Search _ _ | Generate _ => true
  | _ => false
  end.

(** The requests of the indexing step. *)
Definition is_indexing_call (e : Event) : bool :=
  match e with
  | EmbedDocuments _ | Upsert _ _ => true
  | _ => false
  end.

(** The extension test of the ingestion loop. *)
Definition is_pdf (fname : string) : bool :=
  Py.endswith (Py.lower fname) ".pdf".

(** A name ends with a dot and the letters p, d, f, each in either case. *)
Definition has_pdf_extension (fname : string) : Prop :=
  exists stem p d f,
    fname = stem +:+ String "." (String p (String d (String f "")))
    /\ (p = "p" \/ p = "P")%char
    /\ (d = "d" \/ d = "D")%char
    /\ (f = "f" \/ f = "F")%char.

(** The dimension the loaded model reports. *)
Definition dim {services : Services} : nat := get_sentence_embedding_dimension.

(** The records the indexing step builds from the chunks. *)
Definition records {services : Services} (docs : list Document) : list PointStruct :=
  (fun d => mkPoint (embed (page_content d)) d) <$> docs.

(** What the loader returns for an entry of the folder. *)
Definition loaded {services : Services} (fname : string) : Exn + list Document :=
  load_and_split (folder_path +:+ "/" +:+ fname) chunk_size chunk_overlap.

(** The chunks the loader gets out of an entry; none when it raises. *)
Definition pages_of {services : Services} (fname : string) : list Document :=
  match loaded fname with
  | inr pages => pages
  | inl _ => []
  end.

(** The chunks of the files of a listing that pass the extension test. *)
Definition chunks_of {services : Services} (listing : list string) : list Document :=
  flat_map pages_of (List.filter is_pdf listing).

(** The loader raises on none of the entries of a listing that pass the
    extension test. *)
Definition loads_ok {services : Services} (listing : list string) : Prop :=
  forall fname,
    In fname listing -> is_pdf fname = true -> exists pages, loaded fname = inr pages.

(** The events of one collection setup. *)
Definition ensure_events (name : string) (d : nat) (st : gmap string Collection)
  : list Event :=
  (if Py.contains name (Qdrant.get_collections st)
   then [DeleteCollection name;
         Print ("🗑️ Deleted existing collection: " +:+ name)]
   else [])
  ++ [CreateCollection name d COSINE;
      Print ("✅ Created new Qdrant collection: " +:+ name);
      Print "🌐 Qdrant dashboard available at: http://localhost:6333/dashboard"].

(** The last line the ingestion cell prints when the folder exists. *)
Definition ingestion_summary (chunks pdf_files : nat) : string :=
  if (pdf_files =? 0)%nat then
    "No PDF files found in " +:+ folder_path
    +:+ ". Please add PDF files and run this cell again."
  else
    "✅ Loaded and split " +:+ pretty chunks
    +:+ " chunks from " +:+ pretty pdf_files +:+ " PDF files.".

(** The events of the ingestion cell when the folder exists. *)
Definition ingestion_events {services : Services} (listing : list string) : list Event :=
  flat_map (fun fname =>
              [Print ("Loading " +:+ fname +:+ "...");
               LoadAndSplit (folder_path +:+ "/" +:+ fname) chunk_size chunk_overlap])
           (List.filter is_pdf listing)
  ++ [Print (ingestion_summary (length (chunks_of listing))
               (length (List.filter is_pdf listing)))].

(** The events of the ingestion cell when the folder does not exist. *)
Definition folder_created : list Event :=
  [Makedirs folder_path;
   Print ("Created directory: " +:+ folder_path);
   Print "Please add your PDF files to this directory and run this cell again."].

Definition no_documents : string :=
  "No documents loaded. Please run the previous cell successfully first.".

(** The events of a successful indexing step. *)
Definition indexing_events {services : Services} (docs : list Document) (name : string)
  : list Event :=
  [Print "Creating embeddings and uploading to Qdrant...";
   EmbedDocuments (page_content <$> docs);
   Upsert name (length (records docs));
   Print ("✅ Uploaded " +:+ pretty (length docs)
          +:+ " document chunks to Qdrant in " +:+ elapsed_time +:+ " seconds");
   Print ("🌐 View your collection at: http://localhost:6333/dashboard/#/collections/"
          +:+ name)].

(** The events of cells 3 to 5 when the key is [v] and the store is [st]. *)
Definition startup_events {services : Services} (v : string) (st : gmap string Collection)
  : list Event :=
  [Configure v;
   Print "✅ Google API key configured";
   Print ("✅ Encoder ready, dim = " +:+ pretty dim)]
  ++ ensure_events "pdf_documents" dim st.

(** Whether the store takes the records of the chunks: every vector has the
    dimension of the collection created in cell 5. *)
Definition accepted {services : Services} (docs : list Document) : bool :=
  forallb (fun p => length (vector p) =? dim)%nat (records docs).

Definition prompt_created : Event := Print "✅ Prompt template created".

Definition chain_ready : Event := Print "✅ RAG chain with Gemini is ready.".

Definition chain_missing : Event :=
  Print "Vectorstore not created. Please run previous cells successfully first.".

(** The events of loading one PDF file. *)
Definition loading_events (fname : string) : list Event :=
  [Print ("Loading " +:+ fname +:+ "...");
   LoadAndSplit (folder_path +:+ "/" +:+ fname) chunk_size chunk_overlap].

(** The similarity order of the store for a question's vector [v]:
    [p1] comes before [p2]. *)
Definition nearer {services : Services} (v : list Q) (p1 p2 : PointStruct) : Prop :=
  (similarity v (vector p2) <= similarity v (vector p1))%Q.

(** The namespace and the world once cells 3 to 5 have run. *)
Definition started {services : Services} (v : string) (w : World) : State :=
  mkState
    (mkGlobals (Some v) (Some dim) (Some "pdf_documents") None None None None None)
    (mkWorld (<["GOOGLE_API_KEY" := v]> (load_dotenv (environ w))) (pdfs w)
       (<["pdf_documents" := mkCollection dim COSINE []]> (qdrant w))
       (stdin w) (trace w ++ startup_events v (qdrant w))).

(** What the answer pipeline relies on: the chain of cell 9 is bound and the
    collection it reads holds the records of the chunks of this run. *)
Definition chain_built {services : Services} (s : State) (docs : list Document) : Prop :=
  qa_chain (globals s) = Some (mkRetrievalQA "pdf_documents" k template)
  /\ documents (globals s) = Some docs
  /\ docs <> []
  /\ qdrant (world s) !! "pdf_documents"
     = Some (mkCollection dim COSINE (records docs)).

(** The literal text of the template around its three fields, as
    [Py.parse] cuts it. *)
Definition template_pieces : list Py.Piece :=
  Eval vm_compute in default [] (Py.parse template None).

Definition literal_at (n : nat) : string :=
  match template_pieces !! n with
  | Some (Py.Literal text) => text
  | _ => ""
  end.

Definition template_head : string := Eval vm_compute in literal_at 0.
Definition template_middle : string := Eval vm_compute in literal_at 2.
Definition template_answer : string := Eval vm_compute in literal_at 4.
Definition template_end : string := Eval vm_compute in literal_at 6.

(** The prompt for a context and a question. *)
Definition rendered (context question : string) : string :=
  template_head +:+ context +:+ template_middle +:+ question
  +:+ template_answer +:+ question +:+ template_end.

(** The context the "stuff" chain builds from the retrieved chunks. *)
Definition context_of (docs : list Document) : string :=
  Py.join (newline +:+ newline) (page_content <$> docs).

(** The points the retriever gets from a collection for a question. *)
Definition retrieved {services : Services} (question : string) (c : Collection)
  : list PointStruct :=
  Qdrant.search (fun p => similarity (embed question) (vector p)) k c.

(** The reply of the chain to a question over a collection. *)
Definition reply {services : Services} (question : string) (c : Collection) : ChainResult :=
  let docs := payload <$> retrieved question c in
  mkChainResult question (llm (rendered (context_of docs) question)) docs.

(** The events of an answered question. *)
Definition answer_events {services : Services} (question : string) (c : Collection)
  : list Event :=
  [EmbedQuery question;
   Search "pdf_documents" k;
   Generate (rendered (context_of (payload <$> retrieved question c)) question);
   Print (newline +:+ rule);
   Print ("QUESTION: " +:+ question);
   Print rule;
   Print (newline +:+ "ANSWER:");
   Print (result (reply question c))].

(** The lines the session prints before its loop. *)
Definition session_header : list Event :=
  [Print (newline +:+ rule);
   Print "INTERACTIVE Q&A SESSION";
   Print "Type 'exit', 'quit', or 'q' to end the session";
   Print (rule +:+ newline)].

Definition ask_prompt : string := newline +:+ "Enter your question: ".

Definition goodbye : string := newline +:+ "Ending Q&A session. Goodbye!".

(** The events of the interactive loop for the lines it reads before a
    sentinel or the end of the input. *)
Definition loop_events {services : Services} (c : Collection) (lines : list string)
  : list Event :=
  flat_map (fun line => Input ask_prompt :: answer_events line c) lines.

(** The ingestion cell reports a count of zero: its counter is bound to 0,
    its list of chunks is empty and it prints the line of the zero branch. *)
Definition reports_zero_count (s : State) : Prop :=
  pdf_files (globals s) = Some 0
  /\ documents (globals s) = Some []
  /\ In (Print (ingestion_summary 0 0)) (trace (world s)).

(** No request of the indexing step occurs among the events. *)
Definition no_indexing (events : list Event) : Prop :=
  forall e, In e events -> is_indexing_call e = false.

(** No request of the answer pipeline occurs among the events. *)
Definition no_pipeline_call (events : list Event) : Prop :=
  forall e, In e events -> is_pipeline_call e = false.

(** The question the last cell asks when the chain is not bound. *)
Definition example_offer : string :=
  "Would you like to try an example question anyway? (y/n): ".

(** The events of the loop for lines it reads while the chain is not bound:
    each of them gets the "not ready" line. *)
Definition refusal_events (lines : list string) : list Event :=
  flat_map (fun _ : string => [Input ask_prompt; Print not_ready]) lines.

(** ** A concrete instance of the services, to run the notebook on *)

Module Sample.

Fixpoint dot (a b : list Q) : Q :=
  match a, b with
  | x :: a', y :: b' => (x * y + dot a' b')%Q
  | _, _ => 0%Q
  end.

Definition services : Services := {|
  load_dotenv := fun env => env;
  get_sentence_embedding_dimension := 2;
  embed := fun t => [inject_Z (Z.of_nat (String.length t)); 1%Q];
  similarity := dot;
  load_and_split := fun path _ _ =>
    inr [mkDocument ("first chunk of " +:+ path) path 0;
         mkDocument "second" path 0;
         mkDocument "the third chunk" path 1;
         mkDocument "4th" path 1];
  llm := fun _ => "an answer";
  elapsed_time := "0.10"
|}.

(** A process with the key set, a folder with one PDF and one other file,
    an empty store and three lines on standard input. *)
Definition world : World :=
  mkWorld {["GOOGLE_API_KEY" := "k"]} (Some ["a.PDF"; "b.txt"]) ∅
          ["hello"; "Q"; "more"] [].

(** The same process where the folder [./pdfs] does not exist. *)
Definition world_no_folder : World :=
  mkWorld {["GOOGLE_API_KEY" := "k"]} None ∅ ["n"] [].

(** The same process where the folder holds no PDF file. *)
Definition world_no_pdf : World :=
  mkWorld {["GOOGLE_API_KEY" := "k"]} (Some ["notes.txt"]) ∅ ["n"] [].

(** A process without the key. *)
Definition world_no_key : World :=
  mkWorld ∅ (Some ["a.PDF"]) ∅ ["hello"] [].

(** A process that finds the collection of an earlier run in the store, with
    another dimension, another metric and one point. *)
Definition world_stale : World :=
  mkWorld {["GOOGLE_API_KEY" := "k"]} (Some ["a.PDF"])
          {["pdf_documents" :=
              mkCollection 5 DOT [mkPoint [1%Q] (mkDocument "old" "old.pdf" 0)]]}
          ["q"] [].

Definition start (w : World) : State := mkState fresh_globals w.

(** The state of the run on [world] once the chain is built. *)
Definition ready : State := final (setup (services := services) (start world)).

(** Where the setup ends when the folder does not exist. *)
Definition no_folder_end : State :=
  final (setup (services := services) (start world_no_folder)).

(** The same services with PDF files in which the loader finds no text. *)
Definition blank_services : Services := {|
  load_dotenv := fun env => env;
  get_sentence_embedding_dimension := 2;
  embed := fun t => [inject_Z (Z.of_nat (String.length t)); 1%Q];
  similarity := dot;
  load_and_split := fun _ _ _ => inr [];
  llm := fun _ => "an answer";
  elapsed_time := "0.10"
|}.

(** The same services with a loader that cannot read [bad.pdf]. *)
Definition fragile_services : Services := {|
  load_dotenv := fun env => env;
  get_sentence_embedding_dimension := 2;
  embed := fun t => [inject_Z (Z.of_nat (String.length t)); 1%Q];
  similarity := dot;
  load_and_split := fun path _ _ =>
    if String.eqb path "./pdfs/bad.pdf"
    then inl (PdfReadError "Stream has ended unexpectedly")
    else inr [mkDocument ("text of " +:+ path) path 0];
  llm := fun _ => "an answer";
  elapsed_time := "0.10"
|}.

(** A folder where an unreadable file comes between two good ones. *)
Definition world_bad_pdf : World :=
  mkWorld {["GOOGLE_API_KEY" := "k"]}
          (Some ["one.pdf"; "bad.pdf"; "Two.PDF"]) ∅ ["q"] [].

(** An Uninitialized state with lines on standard input: the setup found no
    PDF file. *)
Definition no_pdf_end : State :=
  final (setup (services := services) (start world_no_pdf)).

(** The state in which cell 5 runs: the dimension is bound. *)
Definition before_cell5 (w : World) : State :=
  mkState (set_embedding_dimension 2 fresh_globals) w.

End Sample.

(** * Properties *)

(** ** Python strings *)

Lemma contains_In (x : string) (xs : list string) :
  Py.contains x xs = true <-> In x xs.
Proof.
  unfold Py.contains. rewrite existsb_exists. split.
  - intros (y & Hy & E). apply String.eqb_eq in E. by subst.
  - intros H. exists x. split; [done | apply String.eqb_refl].
Qed.

Lemma append_cons (c : ascii) (s t : string) : String c s +:+ t = String c (s +:+ t).
Proof. reflexivity. Qed.

Lemma append_nil_l (t : string) : "" +:+ t = t.
Proof. reflexivity. Qed.

Lemma length_append (s t : string) :
  String.length (s +:+ t) = String.length s + String.length t.
Proof.
  induction s as [|c s IH]; [done |].
  rewrite append_cons. simpl. by rewrite IH.
Qed.

Lemma append_assoc (s t u : string) : (s +:+ t) +:+ u = s +:+ (t +:+ u).
Proof.
  induction s as [|c s IH]; [done |].
  rewrite !append_cons. by rewrite IH.
Qed.

Lemma append_nil_r (s : string) : s +:+ "" = s.
Proof. induction s as [|c s IH]; [done |]. by rewrite append_cons, IH. Qed.

Lemma substring_all (s : string) : String.substring 0 (String.length s) s = s.
Proof. induction s as [|c s IH]; simpl; [done | by rewrite IH]. Qed.

Lemma substring_append (pre suf : string) :
  String.substring (String.length pre) (String.length suf) (pre +:+ suf) = suf.
Proof.
  induction pre as [|c pre IH]; [apply substring_all |].
  rewrite append_cons. simpl. apply IH.
Qed.

Lemma substring_cut (s : string) (a : nat) :
  a <= String.length s ->
  s = String.substring 0 a s +:+ String.substring a (String.length s - a) s.
Proof.
  revert a. induction s as [|c s IH]; intros a Ha; simpl in *.
  - by destruct a.
  - destruct a as [|a]; simpl.
    + by rewrite substring_all.
    + rewrite append_cons. f_equal. apply IH. lia.
Qed.

(** [s.endswith(suffix)] holds exactly when [s] is some text followed by
    [suffix]. *)
Lemma endswith_spec (s suffix : string) :
  Py.endswith s suffix = true <-> exists stem, s = stem +:+ suffix.
Proof.
  unfold Py.endswith. rewrite andb_true_iff, Nat.leb_le, String.eqb_eq. split.
  - intros [Hle Hsub].
    exists (String.substring 0 (String.length s - String.length suffix) s).
    pose proof (substring_cut s (String.length s - String.length suffix)) as Hcut.
    replace (String.length s - (String.length s - String.length suffix))
      with (String.length suffix) in Hcut by lia.
    rewrite Hsub in Hcut. apply Hcut. lia.
  - intros [stem ->]. rewrite length_append. split; [lia |].
    replace (String.length stem + String.length suffix - String.length suffix)
      with (String.length stem) by lia.
    apply substring_append.
Qed.

Lemma lower_append (s t : string) : Py.lower (s +:+ t) = Py.lower s +:+ Py.lower t.
Proof.
  induction s as [|c s IH]; [done |].
  rewrite append_cons. simpl. by rewrite append_cons, IH.
Qed.

Lemma lower_ascii_idem (c : ascii) : Py.lower_ascii (Py.lower_ascii c) = Py.lower_ascii c.
Proof. destruct c as [[] [] [] [] [] [] [] []]; reflexivity. Qed.

Lemma lower_idem (s : string) : Py.lower (Py.lower s) = Py.lower s.
Proof. induction s as [|c s IH]; simpl; [done | by rewrite lower_ascii_idem, IH]. Qed.

(** The exit test of the loop is equality with a sentinel up to case. *)
Lemma exit_test_spec (line : string) :
  Py.contains (Py.lower line) sentinels = true <-> is_sentinel line.
Proof.
  rewrite contains_In. unfold is_sentinel, eq_ignore_case. split.
  - intros H. exists (Py.lower line). split; [done | by rewrite lower_idem].
  - intros (t & Ht & E). rewrite E.
    simpl in Ht. destruct Ht as [<- | [<- | [<- | []]]]; simpl; tauto.
Qed.

Lemma exit_test_not (line : string) :
  Py.contains (Py.lower line) sentinels = false <-> ~ is_sentinel line.
Proof. rewrite <- exit_test_spec. by destruct (Py.contains _ _). Qed.

Example exit_test_examples :
  is_sentinel "exit" /\ is_sentinel "QUIT" /\ is_sentinel "Q" /\ is_sentinel "eXiT"
  /\ ~ is_sentinel "" /\ ~ is_sentinel "exit " /\ ~ is_sentinel "quit?"
  /\ ~ is_sentinel "qq".
Proof.
  repeat split;
    try (apply exit_test_spec; reflexivity);
    apply exit_test_not; reflexivity.
Qed.

Example lower_example : Py.lower "Quit" = "quit" /\ Py.lower "a.PDF" = "a.pdf".
Proof. split; reflexivity. Qed.

Example format_example :
  Py.format "a {x} b {y}{x}" [("x", "1"); ("y", "22")] = Some "a 1 b 221"
  /\ Py.format "a {x" [("x", "1")] = None
  /\ Py.format "a {z}" [("x", "1")] = None.
Proof. repeat split; reflexivity. Qed.

(** ** The vector store *)

Lemma get_collections_spec (name : string) (st : gmap string Collection) :
  Py.contains name (Qdrant.get_collections st) = true <-> is_Some (st !! name).
Proof.
  rewrite contains_In, <- list_elem_of_In. unfold Qdrant.get_collections.
  rewrite list_elem_of_fmap. split.
  - intros ([k c] & -> & Hkc). apply elem_of_map_to_list in Hkc. by exists c.
  - intros [c Hc]. exists (name, c). split; [done |]. by apply elem_of_map_to_list.
Qed.

(** Delete-if-listed followed by create always ends with a fresh collection
    under the name, whatever was there. *)
Lemma recreate (name : string) (dim : nat) (d : Distance) (st : gmap string Collection) :
  Qdrant.create_collection name dim d
    (if Py.contains name (Qdrant.get_collections st)
     then Qdrant.delete_collection name st else st)
  = inr (<[name := mkCollection dim d []]> st).
Proof.
  unfold Qdrant.create_collection, Qdrant.delete_collection.
  destruct (Py.contains name (Qdrant.get_collections st)) eqn:E.
  - by rewrite lookup_delete_eq, insert_delete_eq.
  - destruct (st !! name) as [c|] eqn:Hc; [| done].
    assert (Py.contains name (Qdrant.get_collections st) = true) as E'
      by (apply get_collections_spec; eauto).
    congruence.
Qed.

Section Search.

Variable score : PointStruct -> Q.

Let before (p1 p2 : PointStruct) : Prop := (score p2 <= score p1)%Q.

Lemma insert_desc_perm (p : PointStruct) (l : list PointStruct) :
  Permutation (Qdrant.insert_desc score p l) (p :: l).
Proof.
  induction l as [|x l IH]; simpl; [done |].
  destruct (Qle_bool (score p) (score x)); [| done].
  rewrite IH. apply perm_swap.
Qed.

Lemma sort_desc_perm (l : list PointStruct) :
  Permutation (Qdrant.sort_desc score l) l.
Proof.
  induction l as [|p l IH]; simpl; [done |].
  by rewrite insert_desc_perm, IH.
Qed.

Lemma insert_desc_sorted (p : PointStruct) (l : list PointStruct) :
  StronglySorted before l -> StronglySorted before (Qdrant.insert_desc score p l).
Proof.
  induction 1 as [|x l Hl IH Hx]; simpl.
  - repeat constructor.
  - destruct (Qle_bool (score p) (score x)) eqn:E.
    + constructor; [done |].
      rewrite insert_desc_perm. constructor; [| done].
      by apply Qle_bool_iff.
    + assert (score x <= score p)%Q as Hxp.
      { apply Qlt_le_weak, Qnot_le_lt. intros H%Qle_bool_iff. congruence. }
      constructor; [by constructor |].
      constructor; [done |].
      eapply Forall_impl; [exact Hx |]. intros y Hy.
      unfold before in *. by eapply Qle_trans.
Qed.

Lemma sort_desc_sorted (l : list PointStruct) :
  StronglySorted before (Qdrant.sort_desc score l).
Proof.
  induction l as [|p l IH]; simpl; [constructor | by apply insert_desc_sorted].
Qed.

(** What [search] returns: [min limit n] points of the collection, in
    descending order of score, none of them scored below a point that was
    left out. *)
Lemma search_spec (limit : nat) (c : Collection) :
  let hits := Qdrant.search score limit c in
  length hits = Nat.min limit (length (points c))
  /\ StronglySorted before hits
  /\ exists rest,
       Permutation (points c) (hits ++ rest)
       /\ forall h r, In h hits -> In r rest -> before h r.
Proof.
  unfold Qdrant.search. set (sorted := Qdrant.sort_desc score (points c)).
  assert (StronglySorted before (take limit sorted ++ drop limit sorted)) as Hs
    by (rewrite take_drop; apply sort_desc_sorted).
  apply StronglySorted_app in Hs as (Hs3 & Hs1 & Hs2).
  repeat split.
  - rewrite length_take. subst sorted.
    by rewrite (Permutation_length (sort_desc_perm (points c))).
  - done.
  - exists (drop limit sorted). split.
    + rewrite take_drop. symmetry. apply sort_desc_perm.
    + intros h r Hh Hr. apply Hs3; by apply list_elem_of_In.
Qed.

End Search.

(** ** The cells, one by one *)

Lemma bind_ok {A B} (m : M A) (f : A -> M B) (s s' : State) (a : A) :
  m s = Ok a s' -> bind m f s = f a s'.
Proof. unfold bind. by intros ->. Qed.

Lemma bind_raised {A B} (m : M A) (f : A -> M B) (s s' : State) (e : Exn) :
  m s = Raised e s' -> bind m f s = Raised e s'.
Proof. unfold bind. by intros ->. Qed.

Lemma emits_emits (a b : list Event) (w : World) :
  emits b (emits a w) = emits (a ++ b) w.
Proof. unfold emits. simpl. by rewrite app_assoc. Qed.

(** Runs the primitive steps of a cell on a state. *)
Ltac run :=
  cbv [bind ret raise act assign print input read_world read_globals bound
       with_world with_globals emit emits final raised
       set_GOOGLE_API_KEY set_embedding_dimension set_collection_name
       set_documents set_pdf_files set_vectorstore set_prompt set_qa_chain
       set_environ set_pdfs set_qdrant set_stdin
       globals world environ pdfs qdrant stdin trace
       GOOGLE_API_KEY embedding_dimension collection_name documents pdf_files
       vectorstore prompt qa_chain].

Tactic Notation "run" "in" hyp(H) :=
  cbv [bind ret raise act assign print input read_world read_globals bound
       with_world with_globals emit emits final raised
       set_GOOGLE_API_KEY set_embedding_dimension set_collection_name
       set_documents set_pdf_files set_vectorstore set_prompt set_qa_chain
       set_environ set_pdfs set_qdrant set_stdin
       globals world environ pdfs qdrant stdin trace
       GOOGLE_API_KEY embedding_dimension collection_name documents pdf_files
       vectorstore prompt qa_chain] in H.

(** Closes a goal that equates two computed outcomes. *)
Ltac same_state :=
  run; rewrite <- ?app_assoc; cbn [app]; reflexivity.

Section Cells.

Context {services : Services}.

Lemma configure_environment_missing (s : State) :
  load_dotenv (environ (world s)) !! "GOOGLE_API_KEY" = None ->
  configure_environment s
  = Raised (TypeError "str expected, not NoneType")
      (mkState (set_GOOGLE_API_KEY None (globals s))
         (set_environ (load_dotenv (environ (world s))) (world s))).
Proof.
  intros H. destruct s as [g w]. destruct g, w.
  unfold configure_environment. run in H. run. rewrite H. reflexivity.
Qed.

Lemma configure_environment_present (s : State) (v : string) :
  load_dotenv (environ (world s)) !! "GOOGLE_API_KEY" = Some v ->
  configure_environment s
  = Ok tt
      (mkState (set_GOOGLE_API_KEY (Some v) (globals s))
         (emits [Configure v; Print "✅ Google API key configured"]
            (set_environ (<["GOOGLE_API_KEY" := v]> (load_dotenv (environ (world s))))
               (world s)))).
Proof.
  intros H. destruct s as [g w]. destruct g, w.
  unfold configure_environment. run in H. run. rewrite H.
  destruct (negb (Py.truthy (Some v))); same_state.
Qed.

Lemma setup_embeddings_spec (s : State) :
  setup_embeddings s
  = Ok tt
      (mkState (set_embedding_dimension dim (globals s))
         (emits [Print ("✅ Encoder ready, dim = " +:+ pretty dim)] (world s))).
Proof. destruct s as [g w]. destruct g, w. reflexivity. Qed.

Lemma ensure_collection_spec (name : string) (s : State) (d : nat) :
  embedding_dimension (globals s) = Some d ->
  ensure_collection name s
  = Ok tt
      (mkState (globals s)
         (emits (ensure_events name d (qdrant (world s)))
            (set_qdrant (<[name := mkCollection d COSINE []]> (qdrant (world s)))
               (world s)))).
Proof.
  intros H. destruct s as [g w]. destruct g, w.
  pose proof (recreate name d COSINE qdrant0) as Hre.
  unfold ensure_collection, ensure_events. run in H. subst. run.
  destruct (Py.contains name (Qdrant.get_collections qdrant0));
    rewrite Hre; same_state.
Qed.

Lemma connect_qdrant_spec (s : State) (d : nat) :
  embedding_dimension (globals s) = Some d ->
  connect_qdrant s
  = Ok tt
      (mkState (set_collection_name "pdf_documents" (globals s))
         (emits (ensure_events "pdf_documents" d (qdrant (world s)))
            (set_qdrant (<["pdf_documents" := mkCollection d COSINE []]>
                           (qdrant (world s)))
               (world s)))).
Proof.
  intros H. unfold connect_qdrant.
  erewrite bind_ok by reflexivity.
  erewrite bind_ok by (destruct s as [[] ?]; reflexivity).
  rewrite (ensure_collection_spec _ _ d); [| by destruct s as [[] ?]].
  destruct s as [[] []]. reflexivity.
Qed.

Lemma chunks_of_cons (fname : string) (names : list string) :
  chunks_of (fname :: names)
  = (if is_pdf fname then pages_of fname else []) ++ chunks_of names.
Proof. unfold chunks_of. simpl. by destruct (is_pdf fname). Qed.

Lemma loads_ok_cons (fname : string) (names : list string) :
  loads_ok (fname :: names)
  <-> (is_pdf fname = true -> exists pages, loaded fname = inr pages)
      /\ loads_ok names.
Proof.
  unfold loads_ok. split.
  - intros H. split; [apply H; by left | intros f Hf; apply H; by right].
  - intros [H1 H2] f [<- | Hf]; [exact H1 | by apply H2].
Qed.

Lemma loads_ok_no_match (names : list string) :
  List.filter is_pdf names = [] -> loads_ok names.
Proof.
  intros Hnone fname Hin Hpdf.
  assert (In fname (List.filter is_pdf names)) as H by (apply filter_In; by split).
  rewrite Hnone in H. destruct H.
Qed.

(** Either the loader raises on no matching entry, or there is a first
    matching entry on which it raises. *)
Lemma loads_ok_or_failure (names : list string) :
  loads_ok names
  \/ exists pre fname post e,
       names = pre ++ fname :: post
       /\ loads_ok pre /\ is_pdf fname = true /\ loaded fname = inl e.
Proof.
  induction names as [|fname names IH].
  - left. intros f [].
  - destruct (is_pdf fname) eqn:E.
    + destruct (loaded fname) as [e | pages] eqn:Hl.
      * right. exists [], fname, names, e. repeat split; [| done | done].
        intros f [].
      * destruct IH as [Hok | (pre & f & post & e & -> & Hpre & Hf & He)].
        -- left. apply loads_ok_cons. split; [eauto | done].
        -- right. exists (fname :: pre), f, post, e. repeat split; try done.
           apply loads_ok_cons. split; [eauto | done].
    + destruct IH as [Hok | (pre & f & post & e & -> & Hpre & Hf & He)].
      * left. apply loads_ok_cons. split; [congruence | done].
      * right. exists (fname :: pre), f, post, e. repeat split; try done.
        apply loads_ok_cons. split; [congruence | done].
Qed.

(** The loop over entries on which the loader does not raise: the chunks are
    appended to [documents], the counter grows by the number of matching
    entries, and the loop goes on with the rest. *)
Lemma load_loop_prefix (pre rest : list string) (s : State)
    (docs : list Document) (n : nat) :
  loads_ok pre ->
  documents (globals s) = Some docs ->
  pdf_files (globals s) = Some n ->
  load_loop (pre ++ rest) s
  = load_loop rest
      (mkState
         (set_pdf_files (n + length (List.filter is_pdf pre))
            (set_documents (docs ++ chunks_of pre) (globals s)))
         (emits (flat_map loading_events (List.filter is_pdf pre)) (world s))).
Proof.
  revert s docs n. induction pre as [|fname pre IH]; intros s docs n Hok Hd Hn.
  - f_equal. destruct s as [g w]. destruct g, w. run in Hd. run in Hn. subst.
    unfold chunks_of. simpl. run. by rewrite !app_nil_r, Nat.add_0_r.
  - apply loads_ok_cons in Hok as [Hf Hok].
    rewrite chunks_of_cons. cbn [app load_loop List.filter].
    change (Py.endswith (Py.lower fname) ".pdf") with (is_pdf fname).
    destruct (is_pdf fname) eqn:E; cbn [negb].
    + destruct (Hf eq_refl) as [pages Hl]. unfold pages_of. rewrite Hl.
      unfold loaded in Hl.
      destruct s as [g w]. destruct g, w. run in Hd. run in Hn. subst.
      run. rewrite Hl.
      rewrite (IH _ (docs ++ pages) (n + 1)); [| done | reflexivity | reflexivity].
      f_equal. run. cbn [length flat_map loading_events app].
      rewrite <- !app_assoc. cbn [app].
      replace (n + 1 + length (List.filter is_pdf pre))
        with (n + S (length (List.filter is_pdf pre))) by lia.
      reflexivity.
    + rewrite (IH s docs n Hok Hd Hn). reflexivity.
Qed.

Lemma load_documents_no_folder (s : State) :
  pdfs (world s) = None ->
  load_documents s
  = Ok tt
      (mkState (globals s)
         (emits [Makedirs folder_path;
                 Print ("Created directory: " +:+ folder_path);
                 Print "Please add your PDF files to this directory and run this cell again."]
            (set_pdfs (Some []) (world s)))).
Proof.
  intros H. destruct s as [g w]. destruct g, w.
  unfold load_documents. run in H. subst. same_state.
Qed.

Lemma load_documents_listing (s : State) (listing : list string) :
  pdfs (world s) = Some listing ->
  loads_ok listing ->
  let matching := List.filter is_pdf listing in
  load_documents s
  = Ok tt
      (mkState
         (set_pdf_files (length matching)
            (set_documents (chunks_of listing) (globals s)))
         (emits (flat_map loading_events matching
                 ++ [Print (ingestion_summary (length (chunks_of listing))
                              (length matching))])
            (world s))).
Proof.
  intros H Hok matching. unfold load_documents.
  unfold bind at 1. unfold read_world at 1. rewrite H.
  unfold bind at 1. unfold assign at 1.
  unfold bind at 1. unfold assign at 1.
  unfold bind at 1.
  rewrite <- (app_nil_r listing) at 1.
  rewrite (load_loop_prefix listing [] _ [] 0 Hok);
    [| by destruct s as [[] ?] | by destruct s as [[] ?]].
  fold matching. unfold ingestion_summary.
  destruct s as [g w]. destruct g, w. cbn [load_loop]. run.
  cbn [Nat.add app].
  destruct (length matching =? 0)%nat; run; rewrite <- ?app_assoc; reflexivity.
Qed.

(** The first matching entry on which the loader raises ends the cell with
    that exception: the entry has been counted and announced, the chunks of
    the entries before it are in [documents], and nothing after it is
    looked at. *)
Lemma load_documents_fails (s : State) (pre post : list string)
    (fname : string) (e : Exn) :
  pdfs (world s) = Some (pre ++ fname :: post) ->
  loads_ok pre ->
  is_pdf fname = true ->
  loaded fname = inl e ->
  load_documents s
  = Raised e
      (mkState
         (set_pdf_files (length (List.filter is_pdf pre) + 1)
            (set_documents (chunks_of pre) (globals s)))
         (emits (flat_map loading_events (List.filter is_pdf pre)
                 ++ loading_events fname)
            (world s))).
Proof.
  intros H Hok Hpdf Hl. unfold load_documents.
  unfold bind at 1. unfold read_world at 1. rewrite H.
  unfold bind at 1. unfold assign at 1.
  unfold bind at 1. unfold assign at 1.
  unfold bind at 1.
  rewrite (load_loop_prefix pre (fname :: post) _ [] 0 Hok);
    [| by destruct s as [[] ?] | by destruct s as [[] ?]].
  cbn [load_loop]. unfold is_pdf in Hpdf. rewrite Hpdf. cbn [negb].
  unfold loaded in Hl.
  destruct s as [g w]. destruct g, w. run. rewrite Hl.
  cbn [Nat.add app]. unfold loading_events. rewrite <- ?app_assoc. reflexivity.
Qed.

Lemma index_documents_none (s : State) :
  documents (globals s) = None \/ documents (globals s) = Some [] ->
  index_documents s
  = Ok tt (mkState (globals s) (emits [Print no_documents] (world s))).
Proof.
  intros H. destruct s as [g w]. destruct g, w.
  unfold index_documents. run in H. run.
  destruct H as [-> | ->]; reflexivity.
Qed.

Lemma index_documents_some (s : State) (docs : list Document) (name : string) :
  documents (globals s) = Some docs ->
  docs <> [] ->
  collection_name (globals s) = Some name ->
  index_documents s
  = match Qdrant.upsert name (records docs) (qdrant (world s)) with
    | inr st =>
        Ok tt
          (mkState (set_vectorstore name (globals s))
             (emits (indexing_events docs name) (set_qdrant st (world s))))
    | inl e =>
        Raised e
          (mkState (globals s)
             (emits [Print "Creating embeddings and uploading to Qdrant...";
                     EmbedDocuments (page_content <$> docs)]
                (world s)))
    end.
Proof.
  intros Hd Hne Hn. destruct s as [g w]. destruct g, w.
  unfold index_documents, from_documents, indexing_events.
  run in Hd. run in Hn. subst. run.
  destruct docs as [|d docs]; [done |].
  change (0 <? length (d :: docs))%nat with true. run.
  fold (records (d :: docs)).
  destruct (Qdrant.upsert name (records (d :: docs)) qdrant0); same_state.
Qed.

Lemma setup_prompt_spec (s : State) :
  setup_prompt s
  = Ok tt
      (mkState (set_prompt template (globals s))
         (emits [Print "✅ Prompt template created"] (world s))).
Proof. destruct s as [g w]. destruct g, w. reflexivity. Qed.

Lemma create_chain_none (s : State) :
  vectorstore (globals s) = None ->
  create_chain s
  = Ok tt
      (mkState (globals s)
         (emits [Print "Vectorstore not created. Please run previous cells successfully first."]
            (world s))).
Proof.
  intros H. destruct s as [g w]. destruct g, w.
  unfold create_chain. run in H. subst. reflexivity.
Qed.

Lemma create_chain_some (s : State) (vs p : string) :
  vectorstore (globals s) = Some vs ->
  prompt (globals s) = Some p ->
  create_chain s
  = Ok tt
      (mkState (set_qa_chain (mkRetrievalQA vs k p) (globals s))
         (emits [Print "✅ RAG chain with Gemini is ready."] (world s))).
Proof.
  intros H Hp. destruct s as [g w]. destruct g, w.
  unfold create_chain. run in H. run in Hp. subst. reflexivity.
Qed.

End Cells.

(** ** The run up to the chain *)

Lemma upsert_fresh (name : string) (d : nat) (dist : Distance)
    (pts : list PointStruct) (st : gmap string Collection) :
  Qdrant.upsert name pts (<[name := mkCollection d dist []]> st)
  = if forallb (fun p => length (vector p) =? d)%nat pts
    then inr (<[name := mkCollection d dist pts]> st)
    else inl (UnexpectedResponse "wrong vector dimension").
Proof.
  unfold Qdrant.upsert. rewrite lookup_insert_eq. simpl.
  destruct (forallb _ pts); [| done]. by rewrite insert_insert_eq.
Qed.

Section Run.

Context {services : Services}.

Lemma setup_no_key (w : World) :
  load_dotenv (environ w) !! "GOOGLE_API_KEY" = None ->
  setup (mkState fresh_globals w)
  = Raised (TypeError "str expected, not NoneType")
      (mkState fresh_globals (set_environ (load_dotenv (environ w)) w)).
Proof.
  intros H. unfold setup.
  by rewrite (bind_raised _ _ _ _ _ (configure_environment_missing (mkState fresh_globals w) H)).
Qed.

Lemma startup (w : World) (v : string) (rest : M unit) :
  load_dotenv (environ w) !! "GOOGLE_API_KEY" = Some v ->
  (configure_environment ;; setup_embeddings ;; connect_qdrant ;; rest)
    (mkState fresh_globals w)
  = rest (started v w).
Proof.
  intros H.
  rewrite (bind_ok _ _ _ _ _ (configure_environment_present (mkState fresh_globals w) v H)).
  rewrite (bind_ok _ _ _ _ _ (setup_embeddings_spec _)).
  erewrite bind_ok by (apply (connect_qdrant_spec _ dim); reflexivity).
  f_equal. destruct w. unfold started, startup_events. same_state.
Qed.

Lemma setup_no_folder (w : World) (v : string) :
  load_dotenv (environ w) !! "GOOGLE_API_KEY" = Some v ->
  pdfs w = None ->
  setup (mkState fresh_globals w)
  = Ok tt
      (mkState
         (mkGlobals (Some v) (Some dim) (Some "pdf_documents") None None None
            (Some template) None)
         (mkWorld (<["GOOGLE_API_KEY" := v]> (load_dotenv (environ w))) (Some [])
            (<["pdf_documents" := mkCollection dim COSINE []]> (qdrant w))
            (stdin w)
            (trace w ++ startup_events v (qdrant w) ++ folder_created
             ++ [Print no_documents; prompt_created; chain_missing]))).
Proof.
  intros H Hf. unfold setup. rewrite (startup _ v) by done.
  erewrite bind_ok by (apply load_documents_no_folder; exact Hf).
  erewrite bind_ok by (apply index_documents_none; by left).
  rewrite (bind_ok _ _ _ _ _ (setup_prompt_spec _)).
  rewrite create_chain_none by reflexivity.
  destruct w. unfold started, folder_created. same_state.
Qed.

Lemma setup_load_fails (w : World) (v : string) (pre post : list string)
    (fname : string) (e : Exn) :
  load_dotenv (environ w) !! "GOOGLE_API_KEY" = Some v ->
  pdfs w = Some (pre ++ fname :: post) ->
  loads_ok pre ->
  is_pdf fname = true ->
  loaded fname = inl e ->
  setup (mkState fresh_globals w)
  = Raised e
      (mkState
         (mkGlobals (Some v) (Some dim) (Some "pdf_documents") (Some (chunks_of pre))
            (Some (length (List.filter is_pdf pre) + 1)) None None None)
         (mkWorld (<["GOOGLE_API_KEY" := v]> (load_dotenv (environ w)))
            (Some (pre ++ fname :: post))
            (<["pdf_documents" := mkCollection dim COSINE []]> (qdrant w))
            (stdin w)
            (trace w ++ startup_events v (qdrant w)
             ++ flat_map loading_events (List.filter is_pdf pre)
             ++ loading_events fname))).
Proof.
  intros H Hf Hok Hpdf Hl. unfold setup. rewrite (startup _ v) by done.
  erewrite bind_raised; [reflexivity |].
  rewrite (load_documents_fails _ pre post fname e); [| exact Hf | done | done | done].
  destruct w. simpl in Hf. subst. unfold started. same_state.
Qed.

Lemma setup_no_chunks (w : World) (v : string) (listing : list string) :
  load_dotenv (environ w) !! "GOOGLE_API_KEY" = Some v ->
  pdfs w = Some listing ->
  loads_ok listing ->
  chunks_of listing = [] ->
  setup (mkState fresh_globals w)
  = Ok tt
      (mkState
         (mkGlobals (Some v) (Some dim) (Some "pdf_documents") (Some [])
            (Some (length (List.filter is_pdf listing))) None (Some template) None)
         (mkWorld (<["GOOGLE_API_KEY" := v]> (load_dotenv (environ w))) (Some listing)
            (<["pdf_documents" := mkCollection dim COSINE []]> (qdrant w))
            (stdin w)
            (trace w ++ startup_events v (qdrant w) ++ ingestion_events listing
             ++ [Print no_documents; prompt_created; chain_missing]))).
Proof.
  intros H Hf Hok Hc. unfold setup. rewrite (startup _ v) by done.
  erewrite bind_ok by (apply (load_documents_listing _ listing); [exact Hf | exact Hok]).
  erewrite bind_ok by (apply index_documents_none; right; run; by rewrite Hc).
  rewrite (bind_ok _ _ _ _ _ (setup_prompt_spec _)).
  rewrite create_chain_none by reflexivity.
  destruct w. simpl in Hf. subst. unfold ingestion_events, started.
  rewrite Hc. same_state.
Qed.

Lemma setup_rejected (w : World) (v : string) (listing : list string) :
  load_dotenv (environ w) !! "GOOGLE_API_KEY" = Some v ->
  pdfs w = Some listing ->
  loads_ok listing ->
  chunks_of listing <> [] ->
  accepted (chunks_of listing) = false ->
  setup (mkState fresh_globals w)
  = Raised (UnexpectedResponse "wrong vector dimension")
      (mkState
         (mkGlobals (Some v) (Some dim) (Some "pdf_documents")
            (Some (chunks_of listing))
            (Some (length (List.filter is_pdf listing))) None None None)
         (mkWorld (<["GOOGLE_API_KEY" := v]> (load_dotenv (environ w))) (Some listing)
            (<["pdf_documents" := mkCollection dim COSINE []]> (qdrant w))
            (stdin w)
            (trace w ++ startup_events v (qdrant w) ++ ingestion_events listing
             ++ [Print "Creating embeddings and uploading to Qdrant...";
                 EmbedDocuments (page_content <$> chunks_of listing)]))).
Proof.
  intros H Hf Hok Hc Ha. unfold setup. rewrite (startup _ v) by done.
  erewrite bind_ok by (apply (load_documents_listing _ listing); [exact Hf | exact Hok]).
  erewrite bind_raised; [reflexivity |].
  erewrite (index_documents_some _ (chunks_of listing) "pdf_documents");
    [| reflexivity | exact Hc | reflexivity].
  unfold started. simpl qdrant. rewrite upsert_fresh.
  unfold accepted in Ha. rewrite Ha.
  destruct w. simpl in Hf. subst. unfold ingestion_events. same_state.
Qed.

Lemma setup_ready (w : World) (v : string) (listing : list string) :
  load_dotenv (environ w) !! "GOOGLE_API_KEY" = Some v ->
  pdfs w = Some listing ->
  loads_ok listing ->
  chunks_of listing <> [] ->
  accepted (chunks_of listing) = true ->
  setup (mkState fresh_globals w)
  = Ok tt
      (mkState
         (mkGlobals (Some v) (Some dim) (Some "pdf_documents")
            (Some (chunks_of listing))
            (Some (length (List.filter is_pdf listing)))
            (Some "pdf_documents") (Some template)
            (Some (mkRetrievalQA "pdf_documents" k template)))
         (mkWorld (<["GOOGLE_API_KEY" := v]> (load_dotenv (environ w))) (Some listing)
            (<["pdf_documents" :=
                 mkCollection dim COSINE (records (chunks_of listing))]> (qdrant w))
            (stdin w)
            (trace w ++ startup_events v (qdrant w) ++ ingestion_events listing
             ++ indexing_events (chunks_of listing) "pdf_documents"
             ++ [prompt_created; chain_ready]))).
Proof.
  intros H Hf Hok Hc Ha. unfold setup. rewrite (startup _ v) by done.
  erewrite bind_ok by (apply (load_documents_listing _ listing); [exact Hf | exact Hok]).
  erewrite bind_ok.
  2:{ erewrite (index_documents_some _ (chunks_of listing) "pdf_documents");
        [| reflexivity | exact Hc | reflexivity].
      unfold started. simpl qdrant. rewrite upsert_fresh.
      unfold accepted in Ha. rewrite Ha. reflexivity. }
  rewrite (bind_ok _ _ _ _ _ (setup_prompt_spec _)).
  erewrite create_chain_some by reflexivity.
  destruct w. simpl in Hf. subst.
  unfold ingestion_events, indexing_events. same_state.
Qed.

End Run.

(** ** The answer pipeline *)

Lemma template_shape :
  Py.parse template None
  = Some [Py.Literal template_head; Py.Field "context";
          Py.Literal template_middle; Py.Field "question";
          Py.Literal template_answer; Py.Field "question";
          Py.Literal template_end].
Proof. vm_compute. reflexivity. Qed.

(** Rendering the template puts the context and the question, as they are,
    between the literal pieces. *)
Lemma format_template (context question : string) :
  Py.format template [("context", context); ("question", question)]
  = Some (rendered context question).
Proof.
  unfold Py.format. rewrite template_shape. unfold rendered. simpl.
  by rewrite append_nil_r.
Qed.

Lemma is_substring_refl (a : string) : is_substring a a.
Proof. exists "", "". by rewrite append_nil_r. Qed.

Lemma is_substring_append_l (a b pre : string) :
  is_substring a b -> is_substring a (pre +:+ b).
Proof.
  intros (x & y & ->). exists (pre +:+ x), y. by rewrite append_assoc.
Qed.

Lemma is_substring_append_r (a b post : string) :
  is_substring a b -> is_substring a (b +:+ post).
Proof.
  intros (x & y & ->). exists x, (y +:+ post). by rewrite !append_assoc.
Qed.

Lemma join_substring (sep x : string) (xs : list string) :
  In x xs -> is_substring x (Py.join sep xs).
Proof.
  induction xs as [|y xs IH]; [done |]. intros [-> | Hin].
  - destruct xs; [apply is_substring_refl |].
    apply is_substring_append_r, is_substring_refl.
  - destruct xs as [|z xs]; [done |].
    change (Py.join sep (y :: z :: xs)) with (y +:+ sep +:+ Py.join sep (z :: xs)).
    by apply is_substring_append_l, is_substring_append_l, IH.
Qed.

Section Pipeline.

Context {services : Services}.

Lemma ask_question_uninitialized (question : string) (s : State) :
  Uninitialized s ->
  ask_question question s
  = Ok None (mkState (globals s) (emits [Print not_ready] (world s))).
Proof.
  unfold Uninitialized. intros H. destruct s as [g w]. destruct g, w.
  unfold ask_question. run in H. subst. reflexivity.
Qed.

Lemma call_chain_spec (question : string) (s : State) (c : Collection) :
  qdrant (world s) !! "pdf_documents" = Some c ->
  call_chain (mkRetrievalQA "pdf_documents" k template) question s
  = Ok (reply question c)
      (mkState (globals s)
         (emits [EmbedQuery question;
                 Search "pdf_documents" k;
                 Generate (rendered (context_of (payload <$> retrieved question c))
                             question)]
            (world s))).
Proof.
  intros H. destruct s as [g w]. destruct g, w.
  unfold call_chain. run in H. run.
  cbv [retriever_collection search_k chain_prompt]. rewrite H.
  fold (retrieved question c). fold (context_of (payload <$> retrieved question c)).
  rewrite format_template. same_state.
Qed.

Lemma ask_question_ready (question : string) (s : State) (c : Collection) :
  qa_chain (globals s) = Some (mkRetrievalQA "pdf_documents" k template) ->
  qdrant (world s) !! "pdf_documents" = Some c ->
  ask_question question s
  = Ok (Some (reply question c))
      (mkState (globals s) (emits (answer_events question c) (world s))).
Proof.
  intros Hq Hc. unfold ask_question.
  unfold bind at 1. unfold read_globals at 1. rewrite Hq.
  rewrite (bind_ok _ _ _ _ _ (call_chain_spec question s c Hc)).
  destruct s as [g w]. destruct g, w. unfold answer_events. same_state.
Qed.

Lemma input_spec (p line : string) (rest : list string) (s : State) :
  stdin (world s) = line :: rest ->
  input p s
  = Ok line (mkState (globals s) (emits [Input p] (set_stdin rest (world s)))).
Proof.
  intros H. destruct s as [g w]. destruct g, w. run in H. subst. reflexivity.
Qed.

Lemma input_eof (p : string) (s : State) :
  stdin (world s) = [] ->
  input p s = Raised EOFError (mkState (globals s) (emits [Input p] (world s))).
Proof.
  intros H. destruct s as [g w]. destruct g, w. run in H. subst. reflexivity.
Qed.

Lemma input_frame (p line : string) (s s' : State) :
  input p s = Ok line s' ->
  globals s' = globals s /\ qdrant (world s') = qdrant (world s).
Proof.
  destruct s as [g w]. destruct g, w. destruct stdin0 as [|l rest].
  - rewrite input_eof by reflexivity. discriminate.
  - rewrite (input_spec _ l rest) by reflexivity. by intros [= _ <-].
Qed.

(** The states the run moves through once the chain is bound. *)
Lemma Ready_chain_built (s : State) : Ready s -> exists docs, chain_built s docs.
Proof.
  induction 1 as [w s Hs Hq | s line _ IH | s p line s' _ IH Hin
                 | s question r s' _ IH Hask].
  - destruct (load_dotenv (environ w) !! "GOOGLE_API_KEY") as [v|] eqn:Hk.
    2:{ rewrite setup_no_key in Hs by done. discriminate. }
    destruct (pdfs w) as [listing|] eqn:Hf.
    2:{ rewrite (setup_no_folder _ v) in Hs by done.
        injection Hs as <-. by destruct Hq. }
    destruct (loads_ok_or_failure listing)
      as [Hok | (pre & fname & post & e & -> & Hpre & Hpdf & Hl)].
    2:{ rewrite (setup_load_fails _ v pre post fname e) in Hs by done.
        discriminate. }
    destruct (chunks_of listing) as [|d ds] eqn:Hc.
    { rewrite (setup_no_chunks _ v listing) in Hs by done.
      injection Hs as <-. by destruct Hq. }
    destruct (accepted (chunks_of listing)) eqn:Ha.
    2:{ rewrite (setup_rejected _ v listing) in Hs by (done || congruence).
        discriminate. }
    rewrite (setup_ready _ v listing) in Hs by (done || congruence).
    injection Hs as <-. exists (chunks_of listing).
    repeat split; [congruence |]. simpl. by rewrite lookup_insert_eq.
  - destruct IH as (docs & IH1 & IH2 & IH3 & IH4). by exists docs.
  - apply input_frame in Hin as [Hg Hw].
    destruct IH as (docs & IH1 & IH2 & IH3 & IH4). exists docs.
    unfold chain_built. by rewrite Hg, Hw.
  - destruct IH as (docs & IH1 & IH2 & IH3 & IH4).
    rewrite (ask_question_ready _ _ _ IH1 IH4) in Hask.
    injection Hask as _ <-. by exists docs.
Qed.

(** *** The interactive loop *)

Lemma questions_app (a b : list Event) :
  questions (a ++ b) = questions a ++ questions b.
Proof.
  induction a as [|e a IH]; [done |]. destruct e; simpl; by rewrite ?IH.
Qed.

Lemma questions_loop_events (c : Collection) (lines : list string) :
  questions (loop_events c lines) = lines.
Proof. induction lines as [|l lines IH]; simpl; [done | by rewrite IH]. Qed.

Lemma qa_loop_sentinel (s : State) (line l0 : string) (rest ls : list string) :
  stdin (world s) = line :: rest ->
  is_sentinel line ->
  qa_loop (l0 :: ls) s
  = Ok tt
      (mkState (globals s)
         (emits [Input ask_prompt; Print goodbye] (set_stdin rest (world s)))).
Proof.
  intros Hin Hs. cbn [qa_loop].
  rewrite (bind_ok _ _ _ _ _ (input_spec _ line rest s Hin)).
  apply exit_test_spec in Hs. cbv beta. rewrite Hs.
  destruct s as [g w]. destruct g, w. same_state.
Qed.

Lemma qa_loop_question (s : State) (docs : list Document)
    (line l0 : string) (rest ls : list string) :
  chain_built s docs ->
  stdin (world s) = line :: rest ->
  ~ is_sentinel line ->
  qa_loop (l0 :: ls) s
  = qa_loop ls
      (mkState (globals s)
         (emits (Input ask_prompt
                 :: answer_events line (mkCollection dim COSINE (records docs)))
            (set_stdin rest (world s)))).
Proof.
  intros (Hq & _ & _ & Hc) Hin Hs. cbn [qa_loop].
  rewrite (bind_ok _ _ _ _ _ (input_spec _ line rest s Hin)).
  apply exit_test_not in Hs. cbv beta. rewrite Hs.
  erewrite bind_ok by (apply ask_question_ready; [exact Hq | exact Hc]).
  f_equal. destruct s as [g w]. destruct g, w. same_state.
Qed.

Lemma chain_built_step (s : State) (docs : list Document)
    (events : list Event) (rest : list string) :
  chain_built s docs ->
  chain_built
    (mkState (globals s) (emits events (set_stdin rest (world s)))) docs.
Proof. by destruct s as [g []]. Qed.

Lemma qa_loop_until_sentinel (pre : list string) (line : string)
    (rest : list string) (s : State) (docs : list Document) :
  chain_built s docs ->
  stdin (world s) = pre ++ line :: rest ->
  Forall (fun l => ~ is_sentinel l) pre ->
  is_sentinel line ->
  qa_loop (stdin (world s)) s
  = Ok tt
      (mkState (globals s)
         (emits (loop_events (mkCollection dim COSINE (records docs)) pre
                 ++ [Input ask_prompt; Print goodbye])
            (set_stdin rest (world s)))).
Proof.
  revert s. induction pre as [|l pre IH]; intros s Hb Hin Hpre Hs.
  - rewrite Hin. simpl app. by apply (qa_loop_sentinel s line line rest rest).
  - apply Forall_cons in Hpre as [Hl Hpre].
    rewrite Hin at 1. simpl app.
    rewrite (qa_loop_question s docs l _ (pre ++ line :: rest)) by done.
    specialize (IH (mkState (globals s)
      (emits (Input ask_prompt
              :: answer_events l (mkCollection dim COSINE (records docs)))
         (set_stdin (pre ++ line :: rest) (world s))))).
    simpl stdin in IH. rewrite IH;
      [| by apply chain_built_step | by destruct s as [g []] | done | done].
    destruct s as [g w]. destruct g, w. same_state.
Qed.

Lemma qa_loop_eof (lines : list string) (s : State) (docs : list Document) :
  chain_built s docs ->
  stdin (world s) = lines ->
  Forall (fun l => ~ is_sentinel l) lines ->
  qa_loop lines s
  = Raised EOFError
      (mkState (globals s)
         (emits (loop_events (mkCollection dim COSINE (records docs)) lines
                 ++ [Input ask_prompt])
            (set_stdin [] (world s)))).
Proof.
  revert s. induction lines as [|l lines IH]; intros s Hb Hin Hall.
  - simpl. rewrite (bind_raised _ _ _ _ _ (input_eof _ s Hin)).
    destruct s as [g w]. destruct g, w. run in Hin. subst. same_state.
  - apply Forall_cons in Hall as [Hl Hall].
    rewrite (qa_loop_question s docs l _ lines) by done.
    rewrite IH; [| by apply chain_built_step | by destruct s as [g []] | done].
    destruct s as [g w]. destruct g, w. same_state.
Qed.

End Pipeline.

(** * The claims *)

(** ** Ingestion *)

Lemma lower_append_inv (s a b : string) :
  Py.lower s = a +:+ b ->
  exists a' b', s = a' +:+ b' /\ Py.lower a' = a /\ Py.lower b' = b.
Proof.
  revert s. induction a as [|c a IH]; intros s H.
  - by exists "", s.
  - destruct s as [|c' s]; [discriminate |].
    rewrite append_cons in H. simpl in H. injection H as Hc Hs.
    destruct (IH s Hs) as (a' & b' & -> & <- & <-).
    exists (String c' a'), b'. rewrite append_cons. simpl. by rewrite Hc.
Qed.

Lemma lower_ascii_dot (c : ascii) : Py.lower_ascii c = "."%char -> c = "."%char.
Proof.
  destruct c as [[] [] [] [] [] [] [] []]; vm_compute; intros H;
    first [discriminate H | reflexivity].
Qed.

Lemma lower_ascii_p (c : ascii) :
  Py.lower_ascii c = "p"%char -> (c = "p" \/ c = "P")%char.
Proof.
  destruct c as [[] [] [] [] [] [] [] []]; vm_compute; intros H;
    first [discriminate H | by left | by right].
Qed.

Lemma lower_ascii_d (c : ascii) :
  Py.lower_ascii c = "d"%char -> (c = "d" \/ c = "D")%char.
Proof.
  destruct c as [[] [] [] [] [] [] [] []]; vm_compute; intros H;
    first [discriminate H | by left | by right].
Qed.

Lemma lower_ascii_f (c : ascii) :
  Py.lower_ascii c = "f"%char -> (c = "f" \/ c = "F")%char.
Proof.
  destruct c as [[] [] [] [] [] [] [] []]; vm_compute; intros H;
    first [discriminate H | by left | by right].
Qed.

(** The extension test of the loop, without reference to [lower]: the name
    ends with [.pdf] written in any mix of cases. *)
Lemma is_pdf_spec (fname : string) : is_pdf fname = true <-> has_pdf_extension fname.
Proof.
  unfold is_pdf. rewrite endswith_spec. split.
  - intros [stem H]. apply lower_append_inv in H as (stem' & ext & -> & _ & Hext).
    destruct ext as [|c0 [|p [|d [|f [|c4 ext]]]]]; try discriminate.
    simpl in Hext. injection Hext as H0 Hp Hd Hf.
    apply lower_ascii_dot in H0 as ->.
    exists stem', p, d, f. split; [reflexivity |].
    split; [by apply lower_ascii_p |]. split; [by apply lower_ascii_d |].
    by apply lower_ascii_f.
  - intros (stem & p & d & f & -> & Hp & Hd & Hf).
    exists (Py.lower stem). rewrite lower_append. f_equal.
    destruct Hp as [-> | ->], Hd as [-> | ->], Hf as [-> | ->]; reflexivity.
Qed.

(** C10, as stated, fails when the loader raises: the cell stops at the
    first matching entry the loader cannot read, and a later entry is not
    processed although its lowercased name ends with [.pdf].  Here [bad.pdf]
    is unreadable and [Two.PDF], after it, is never handed to the loader. *)
Lemma later_pdf_not_loaded :
  pdfs Sample.world_bad_pdf = Some ["one.pdf"; "bad.pdf"; "Two.PDF"]
  /\ Py.lower "Two.PDF" = "two" +:+ ".pdf"
  /\ Py.endswith (Py.lower "Two.PDF") ".pdf" = true
  /\ load_documents (services := Sample.fragile_services)
       (Sample.start Sample.world_bad_pdf)
     = Raised (PdfReadError "Stream has ended unexpectedly")
         (final (load_documents (services := Sample.fragile_services)
                   (Sample.start Sample.world_bad_pdf)))
  /\ trace (world (final (load_documents (services := Sample.fragile_services)
                            (Sample.start Sample.world_bad_pdf))))
     = [Print "Loading one.pdf..."; LoadAndSplit "./pdfs/one.pdf" 1000 200;
        Print "Loading bad.pdf..."; LoadAndSplit "./pdfs/bad.pdf" 1000 200]
  /\ ~ In (LoadAndSplit "./pdfs/Two.PDF" 1000 200)
          (trace (world (final (load_documents (services := Sample.fragile_services)
                                  (Sample.start Sample.world_bad_pdf)))))
  /\ documents (globals (final (load_documents (services := Sample.fragile_services)
                                  (Sample.start Sample.world_bad_pdf))))
     = Some [mkDocument "text of ./pdfs/one.pdf" "./pdfs/one.pdf" 0].
Proof.
  split; [reflexivity |]. split; [reflexivity |]. split; [reflexivity |].
  split; [vm_compute; reflexivity |]. split; [vm_compute; reflexivity |].
  split; [| vm_compute; reflexivity].
  vm_compute. intros [H | [H | [H | [H | []]]]]; discriminate H.
Qed.

(** C10, amended: the extension test of the ingestion loop ignores case.  An
    entry passes it exactly when its name ends with a dot followed by the
    letters p, d, f, each in upper or lower case.  The entries are taken in
    the order of the listing.  As long as the loader raises on none of them,
    the files the cell loads are exactly the entries that pass the test: each
    is announced and loaded, its chunks are appended to [documents] and it is
    counted in [pdf_files], while the other entries leave no event at all in
    the trace.  The first matching entry on which the loader raises ends the
    cell with that exception, after it was counted and announced; the
    entries after it are not looked at. *)
Theorem pdf_extension_filter {services : Services} (s : State) (listing : list string) :
  pdfs (world s) = Some listing ->
  ((forall fname,
      In fname listing -> Py.endswith (Py.lower fname) ".pdf" = true ->
      exists pages,
        load_and_split (folder_path +:+ "/" +:+ fname) 1000 200 = inr pages) ->
   exists processed s',
     load_documents s = Ok tt s'
     /\ processed = List.filter (fun fname => Py.endswith (Py.lower fname) ".pdf") listing
     /\ (forall fname,
           In fname processed <-> In fname listing /\ has_pdf_extension fname)
     /\ trace (world s')
        = trace (world s)
          ++ flat_map (fun fname =>
                         [Print ("Loading " +:+ fname +:+ "...");
                          LoadAndSplit (folder_path +:+ "/" +:+ fname) 1000 200])
                      processed
          ++ [Print (ingestion_summary (length (chunks_of listing)) (length processed))]
     /\ documents (globals s') = Some (flat_map pages_of processed)
     /\ pdf_files (globals s') = Some (length processed))
  /\ (forall pre fname post e,
        listing = pre ++ fname :: post ->
        (forall earlier,
           In earlier pre -> Py.endswith (Py.lower earlier) ".pdf" = true ->
           exists pages,
             load_and_split (folder_path +:+ "/" +:+ earlier) 1000 200 = inr pages) ->
        has_pdf_extension fname ->
        load_and_split (folder_path +:+ "/" +:+ fname) 1000 200 = inl e ->
        exists s',
          load_documents s = Raised e s'
          /\ trace (world s')
             = trace (world s)
               ++ flat_map (fun earlier =>
                              [Print ("Loading " +:+ earlier +:+ "...");
                               LoadAndSplit (folder_path +:+ "/" +:+ earlier) 1000 200])
                           (List.filter
                              (fun earlier => Py.endswith (Py.lower earlier) ".pdf") pre)
               ++ [Print ("Loading " +:+ fname +:+ "...");
                   LoadAndSplit (folder_path +:+ "/" +:+ fname) 1000 200]
          /\ documents (globals s') = Some (chunks_of pre)
          /\ pdf_files (globals s')
             = Some (length (List.filter
                               (fun earlier => Py.endswith (Py.lower earlier) ".pdf")
                               pre) + 1)).
Proof.
  intros Hf. split.
  - intros Hok. eexists _, _.
    split; [exact (load_documents_listing s listing Hf Hok) |].
    split; [reflexivity |]. split.
    + intros fname. rewrite filter_In. fold (is_pdf fname). by rewrite is_pdf_spec.
    + destruct s as [g w]. destruct g, w. repeat split.
  - intros pre fname post e -> Hok Hext Hl. apply is_pdf_spec in Hext.
    eexists. split; [exact (load_documents_fails s pre post fname e Hf Hok Hext Hl) |].
    destruct s as [g w]. destruct g, w. repeat split.
Qed.

Lemma pdf_extension_filter_witness :
  pdfs (world (Sample.start Sample.world)) = Some ["a.PDF"; "b.txt"]
  /\ (forall fname,
        In fname ["a.PDF"; "b.txt"] -> Py.endswith (Py.lower fname) ".pdf" = true ->
        exists pages,
          load_and_split (Services := Sample.services)
            (folder_path +:+ "/" +:+ fname) 1000 200 = inr pages)
  /\ has_pdf_extension "a.PDF"
  /\ exists s',
       load_documents (services := Sample.services) (Sample.start Sample.world)
       = Ok tt s'
       /\ trace (world s')
          = [Print "Loading a.PDF...";
             LoadAndSplit "./pdfs/a.PDF" 1000 200;
             Print "✅ Loaded and split 4 chunks from 1 PDF files."]
       /\ (forall fname,
             In (LoadAndSplit ("./pdfs/" +:+ fname) 1000 200) (trace (world s'))
             -> fname = "a.PDF")
       /\ pdf_files (globals s') = Some 1.
Proof.
  assert (forall fname,
            In fname ["a.PDF"; "b.txt"] ->
            Py.endswith (Py.lower fname) ".pdf" = true ->
            exists pages,
              load_and_split (Services := Sample.services)
                (folder_path +:+ "/" +:+ fname) 1000 200 = inr pages) as Hok
    by (intros fname _ _; eexists; reflexivity).
  split; [reflexivity |]. split; [exact Hok |].
  split; [exists "a", "P"%char, "D"%char, "F"%char; repeat split; by right |].
  destruct (proj1 (pdf_extension_filter (services := Sample.services)
                     (Sample.start Sample.world) ["a.PDF"; "b.txt"] eq_refl) Hok)
    as (processed & s' & Hrun & -> & _ & Htrace & _ & Hn).
  exists s'. split; [exact Hrun |]. split; [exact Htrace |].
  split; [| exact Hn].
  intros fname. rewrite Htrace. intros [H | [H | [H | []]]]; try discriminate H.
  injection H as H. symmetry. exact H.
Defined.

Example pdf_extension_examples :
  is_pdf "report.pdf" = true /\ is_pdf "REPORT.PDF" = true
  /\ is_pdf "Slides.Pdf" = true /\ is_pdf ".pdf" = true
  /\ is_pdf "notes.txt" = false /\ is_pdf "paper.pdf.bak" = false
  /\ is_pdf "pdf" = false /\ is_pdf "" = false.
Proof. repeat split; reflexivity. Qed.

Lemma no_indexing_forallb (events : list Event) :
  no_indexing events <-> forallb (fun e => negb (is_indexing_call e)) events = true.
Proof.
  unfold no_indexing. rewrite forallb_forall. split; intros Hall e He.
  - by rewrite Hall.
  - apply Hall in He. by destruct (is_indexing_call e).
Qed.

(** C5, as stated, fails where the folder does not exist: that branch of the
    cell creates the folder and asks for files, and has no count to report.
    In the run below neither [pdf_files] nor [documents] is ever bound and no
    printed line carries a count. *)
Lemma no_folder_reports_no_count :
  pdfs Sample.world_no_folder = None
  /\ ~ reports_zero_count Sample.no_folder_end
  /\ pdf_files (globals Sample.no_folder_end) = None
  /\ documents (globals Sample.no_folder_end) = None
  /\ trace (world Sample.no_folder_end)
     = [Configure "k";
        Print "✅ Google API key configured";
        Print "✅ Encoder ready, dim = 2";
        CreateCollection "pdf_documents" 2 COSINE;
        Print "✅ Created new Qdrant collection: pdf_documents";
        Print "🌐 Qdrant dashboard available at: http://localhost:6333/dashboard";
        Makedirs "./pdfs";
        Print "Created directory: ./pdfs";
        Print "Please add your PDF files to this directory and run this cell again.";
        Print "No documents loaded. Please run the previous cell successfully first.";
        Print "✅ Prompt template created";
        Print "Vectorstore not created. Please run previous cells successfully first."].
Proof.
  repeat split; try (vm_compute; reflexivity).
  intros (Hcount & _). vm_compute in Hcount. discriminate.
Qed.

(** C5, amended: in a configured run, when the folder does not exist or holds
    no file that passes the extension test, the run prints guidance, does not
    raise and never reaches the indexing step: no chunk is embedded, nothing
    is upserted (the collection stays empty) and neither the vector store nor
    the chain is bound.  A count of zero is reported only when the folder
    exists; when it does not, the folder is created and no count is bound. *)
Theorem empty_input_skips_indexing {services : Services} (w : World) (v : string) :
  load_dotenv (environ w) !! "GOOGLE_API_KEY" = Some v ->
  pdfs w = None
  \/ (exists listing, pdfs w = Some listing /\ List.filter is_pdf listing = []) ->
  exists s' guidance,
    setup (mkState fresh_globals w) = Ok tt s'
    /\ trace (world s')
       = trace w ++ startup_events v (qdrant w) ++ guidance
         ++ [Print no_documents; prompt_created; chain_missing]
    /\ no_indexing (startup_events v (qdrant w) ++ guidance
                    ++ [Print no_documents; prompt_created; chain_missing])
    /\ qdrant (world s') !! "pdf_documents" = Some (mkCollection dim COSINE [])
    /\ vectorstore (globals s') = None
    /\ qa_chain (globals s') = None
    /\ (pdfs w = None ->
        guidance
        = [Makedirs "./pdfs";
           Print "Created directory: ./pdfs";
           Print "Please add your PDF files to this directory and run this cell again."]
        /\ pdfs (world s') = Some []
        /\ pdf_files (globals s') = None
        /\ documents (globals s') = None)
    /\ (pdfs w <> None ->
        guidance
        = [Print "No PDF files found in ./pdfs. Please add PDF files and run this cell again."]
        /\ reports_zero_count s').
Proof.
  assert (forall g, no_indexing
            (startup_events v (qdrant w) ++ g
             ++ [Print no_documents; prompt_created; chain_missing])
          <-> no_indexing g) as Hframe.
  { intros g. rewrite !no_indexing_forallb, !forallb_app.
    unfold startup_events, ensure_events.
    destruct (Py.contains _ _); simpl; rewrite andb_true_r; tauto. }
  intros Hk [Hf | (listing & Hf & Hnone)].
  - eexists _, folder_created. split; [by apply (setup_no_folder w v) |].
    split; [reflexivity |].
    split; [apply Hframe; by apply no_indexing_forallb |].
    split; [simpl; by rewrite lookup_insert_eq |].
    repeat split; done.
  - assert (chunks_of listing = []) as Hc by (unfold chunks_of; by rewrite Hnone).
    pose proof (loads_ok_no_match listing Hnone) as Hok.
    assert (ingestion_events listing = [Print (ingestion_summary 0 0)]) as Hev
      by (unfold ingestion_events; by rewrite Hc, Hnone).
    eexists _, (ingestion_events listing).
    split; [by apply (setup_no_chunks w v listing) |].
    split; [reflexivity |].
    split; [apply Hframe; rewrite Hev; by apply no_indexing_forallb |].
    split; [simpl; by rewrite lookup_insert_eq |].
    rewrite Hev, Hnone. split; [done |]. split; [done |].
    split; [intros Hn; congruence |]. intros _. split; [done |].
    repeat split. cbn [trace world]. rewrite !in_app_iff.
    right. right. left. apply in_eq.
Qed.

Lemma empty_input_skips_indexing_witness :
  load_dotenv (Services := Sample.services) (environ Sample.world_no_pdf)
    !! "GOOGLE_API_KEY" = Some "k"
  /\ (pdfs Sample.world_no_pdf = None
      \/ exists listing,
           pdfs Sample.world_no_pdf = Some listing /\ List.filter is_pdf listing = [])
  /\ exists s' guidance,
       setup (services := Sample.services) (mkState fresh_globals Sample.world_no_pdf)
       = Ok tt s'
       /\ guidance
          = [Print "No PDF files found in ./pdfs. Please add PDF files and run this cell again."]
       /\ reports_zero_count s'
       /\ vectorstore (globals s') = None.
Proof.
  assert (load_dotenv (Services := Sample.services) (environ Sample.world_no_pdf)
            !! "GOOGLE_API_KEY" = Some "k") as Hk by reflexivity.
  assert (pdfs Sample.world_no_pdf = None
          \/ exists listing,
               pdfs Sample.world_no_pdf = Some listing
               /\ List.filter is_pdf listing = []) as He
    by (right; exists ["notes.txt"]; split; reflexivity).
  split; [exact Hk |]. split; [exact He |].
  destruct (empty_input_skips_indexing (services := Sample.services)
              Sample.world_no_pdf "k" Hk He)
    as (s' & guidance & Hrun & _ & _ & _ & Hvs & _ & _ & Hzero).
  exists s', guidance. split; [exact Hrun |].
  assert (pdfs Sample.world_no_pdf <> None) as Hne by discriminate.
  destruct (Hzero Hne) as [Hg Hz].
  split; [exact Hg | split; [exact Hz | exact Hvs]].
Defined.

(** ** Collection setup *)

Lemma ensure_collection_repeat (n : nat) (name : string)
    (d : nat) (s : State) :
  embedding_dimension (globals s) = Some d ->
  exists later,
    repeat_cell (S n) (ensure_collection name) s
    = Ok tt
        (mkState (globals s)
           (emits (ensure_events name d (qdrant (world s)) ++ later)
              (set_qdrant (<[name := mkCollection d COSINE []]> (qdrant (world s)))
                 (world s)))).
Proof.
  revert s. induction n as [|n IH]; intros s Hd.
  - exists []. cbn [repeat_cell].
    rewrite (bind_ok _ _ _ _ _ (ensure_collection_spec name s d Hd)).
    destruct s as [g w]. destruct g, w. run. by rewrite app_nil_r.
  - change (repeat_cell (S (S n)) (ensure_collection name))
      with (ensure_collection name ;; repeat_cell (S n) (ensure_collection name)).
    rewrite (bind_ok _ _ _ _ _ (ensure_collection_spec name s d Hd)).
    edestruct IH as [later ->]; [exact Hd |].
    exists (ensure_events name d
              (<[name := mkCollection d COSINE []]> (qdrant (world s))) ++ later).
    destruct s as [g w]. destruct g, w. run.
    rewrite insert_insert_eq, <- !app_assoc. reflexivity.
Qed.

(** C2: the collection setup of cell 5, run once or several times in
    succession for the same name, ends without an error with an empty
    collection under that name, of the dimension bound to
    [embedding_dimension] and with the cosine metric, whatever the store held
    under the name before; the other collections are left as they were.  In
    each call a collection that exists under the name is deleted first and
    the collection is then created. *)
Theorem ensure_collection_reset (n : nat) (name : string)
    (d : nat) (s : State) :
  embedding_dimension (globals s) = Some d ->
  exists s' later,
    repeat_cell (S n) (ensure_collection name) s = Ok tt s'
    /\ qdrant (world s') !! name = Some (mkCollection d COSINE [])
    /\ (forall other, other <> name ->
                      qdrant (world s') !! other = qdrant (world s) !! other)
    /\ trace (world s')
       = trace (world s)
         ++ (match qdrant (world s) !! name with
             | Some _ => [DeleteCollection name;
                          Print ("🗑️ Deleted existing collection: " +:+ name)]
             | None => []
             end
             ++ [CreateCollection name d COSINE;
                 Print ("✅ Created new Qdrant collection: " +:+ name);
                 Print "🌐 Qdrant dashboard available at: http://localhost:6333/dashboard"])
         ++ later.
Proof.
  intros Hd. destruct (ensure_collection_repeat n name d s Hd) as [later Hrun].
  eexists _, later. split; [exact Hrun |]. cbn [world qdrant set_qdrant emits trace].
  split; [apply lookup_insert_eq |].
  split; [intros other Hne; by apply lookup_insert_ne |].
  assert (ensure_events name d (qdrant (world s))
          = match qdrant (world s) !! name with
            | Some _ => [DeleteCollection name;
                         Print ("🗑️ Deleted existing collection: " +:+ name)]
            | None => []
            end
            ++ [CreateCollection name d COSINE;
                Print ("✅ Created new Qdrant collection: " +:+ name);
                Print "🌐 Qdrant dashboard available at: http://localhost:6333/dashboard"])
    as ->; [| reflexivity].
  unfold ensure_events.
  destruct (qdrant (world s) !! name) as [c|] eqn:Hc.
  - assert (Py.contains name (Qdrant.get_collections (qdrant (world s))) = true)
      as -> by (apply get_collections_spec; eauto).
    reflexivity.
  - destruct (Py.contains name (Qdrant.get_collections (qdrant (world s)))) eqn:E;
      [| reflexivity].
    apply get_collections_spec in E as [c' Hc']. congruence.
Qed.

Lemma ensure_collection_reset_witness :
  embedding_dimension (globals (Sample.before_cell5 Sample.world_stale)) = Some 2
  /\ exists s' later,
       repeat_cell 2 (ensure_collection "pdf_documents")
         (Sample.before_cell5 Sample.world_stale)
       = Ok tt s'
       /\ qdrant (world s') !! "pdf_documents" = Some (mkCollection 2 COSINE [])
       /\ (forall other, other <> "pdf_documents" ->
             qdrant (world s') !! other
             = qdrant (world (Sample.before_cell5 Sample.world_stale)) !! other)
       /\ trace (world s')
          = trace (world (Sample.before_cell5 Sample.world_stale))
            ++ (match qdrant (world (Sample.before_cell5 Sample.world_stale))
                      !! "pdf_documents" with
                | Some _ => [DeleteCollection "pdf_documents";
                             Print ("🗑️ Deleted existing collection: "
                                    +:+ "pdf_documents")]
                | None => []
                end
                ++ [CreateCollection "pdf_documents" 2 COSINE;
                    Print ("✅ Created new Qdrant collection: " +:+ "pdf_documents");
                    Print "🌐 Qdrant dashboard available at: http://localhost:6333/dashboard"])
            ++ later.
Proof.
  split; [reflexivity |].
  apply (ensure_collection_reset 1 "pdf_documents" 2
           (Sample.before_cell5 Sample.world_stale)).
  reflexivity.
Defined.

Example ensure_collection_discards_old_points :
  qdrant (world (final (repeat_cell 2 (ensure_collection "pdf_documents")
                          (Sample.before_cell5 Sample.world_stale))))
    !! "pdf_documents"
  = Some (mkCollection 2 COSINE []).
Proof. vm_compute. reflexivity. Qed.

(** ** Retrieval and prompt *)

Lemma sample_ready : Ready (services := Sample.services) Sample.ready.
Proof.
  apply (Ready_setup (services := Sample.services) Sample.world).
  - vm_compute. reflexivity.
  - eexists. vm_compute. reflexivity.
Defined.

(** C3: in a Ready state a question is answered from the collection
    [pdf_documents]; the chunks the answer carries are the payloads of
    [min 3 n] of its [n] points, in descending order of the similarity of
    their vectors to the embedding of the question, and no point that was
    left out is more similar than a retrieved one. *)
Theorem top_k_retrieval {services : Services} (s : State) (question : string) :
  Ready s ->
  exists c res s' hits rest,
    qdrant (world s) !! "pdf_documents" = Some c
    /\ ask_question question s = Ok (Some res) s'
    /\ source_documents res = payload <$> hits
    /\ length (source_documents res) = Nat.min 3 (length (points c))
    /\ StronglySorted (nearer (embed question)) hits
    /\ Permutation (points c) (hits ++ rest)
    /\ (forall h r, In h hits -> In r rest -> nearer (embed question) h r)
    /\ In (Search "pdf_documents" 3) (trace (world s')).
Proof.
  intros Hr. destruct (Ready_chain_built s Hr) as (docs & Hq & _ & _ & Hc).
  set (c := mkCollection dim COSINE (records docs)) in *.
  destruct (search_spec (fun p => similarity (embed question) (vector p)) k c)
    as (Hlen & Hsorted & rest & Hperm & Htop).
  eexists c, (reply question c), _, (retrieved question c), rest.
  split; [exact Hc |]. split; [by apply ask_question_ready |].
  split; [reflexivity |].
  split; [simpl; by rewrite length_fmap |].
  split; [exact Hsorted |]. split; [exact Hperm |]. split; [exact Htop |].
  cbn [world trace emits]. rewrite in_app_iff. right. right. left. reflexivity.
Qed.

Lemma top_k_retrieval_witness :
  Ready (services := Sample.services) Sample.ready
  /\ exists c res s' hits rest,
       qdrant (world Sample.ready) !! "pdf_documents" = Some c
       /\ ask_question (services := Sample.services) "hello" Sample.ready
          = Ok (Some res) s'
       /\ source_documents res = payload <$> hits
       /\ length (source_documents res) = Nat.min 3 (length (points c))
       /\ StronglySorted
            (nearer (services := Sample.services)
               (embed (Services := Sample.services) "hello")) hits
       /\ Permutation (points c) (hits ++ rest)
       /\ (forall h r, In h hits -> In r rest ->
             nearer (services := Sample.services)
               (embed (Services := Sample.services) "hello") h r)
       /\ In (Search "pdf_documents" 3) (trace (world s')).
Proof.
  split; [exact sample_ready |].
  exact (top_k_retrieval (services := Sample.services) Sample.ready "hello"
           sample_ready).
Defined.

Example top_k_retrieval_example :
  (fun o => match o with
            | Ok (Some res) _ => page_content <$> source_documents res
            | _ => []
            end)
    (ask_question (services := Sample.services) "hello" Sample.ready)
  = ["first chunk of ./pdfs/a.PDF"; "the third chunk"; "second"].
Proof. vm_compute. reflexivity. Qed.

(** C6: whatever chunks were retrieved and whatever the question is, the
    rendered template contains the joined chunk texts, every single chunk
    text and the question as they are; and in a Ready state the prompt handed
    to the LLM is this rendering for the chunks the answer carries. *)
Theorem prompt_contains_context_and_question {services : Services} :
  (forall (docs : list Document) (question : string),
     exists text,
       Py.format template
         [("context", Py.join (newline +:+ newline) (page_content <$> docs));
          ("question", question)]
       = Some text
       /\ is_substring (Py.join (newline +:+ newline) (page_content <$> docs)) text
       /\ is_substring question text
       /\ forall d, In d docs -> is_substring (page_content d) text)
  /\ (forall (s : State) (question : string),
        Ready s ->
        exists res s' text shown,
          ask_question question s = Ok (Some res) s'
          /\ trace (world s')
             = trace (world s)
               ++ [EmbedQuery question; Search "pdf_documents" 3; Generate text]
               ++ shown
          /\ result res = llm text
          /\ Py.format template
               [("context",
                 Py.join (newline +:+ newline)
                   (page_content <$> source_documents res));
                ("question", question)]
             = Some text
          /\ is_substring
               (Py.join (newline +:+ newline)
                  (page_content <$> source_documents res)) text
          /\ is_substring question text).
Proof.
  assert (forall context question,
            is_substring context (rendered context question)
            /\ is_substring question (rendered context question)) as Hsub.
  { intros context question. unfold rendered. split.
    - apply is_substring_append_l, is_substring_append_r, is_substring_refl.
    - do 3 apply is_substring_append_l.
      apply is_substring_append_r, is_substring_refl. }
  split.
  - intros docs question. eexists. split; [apply format_template |].
    fold (context_of docs). destruct (Hsub (context_of docs) question) as [Hc Hq].
    split; [exact Hc |]. split; [exact Hq |].
    intros d Hd. destruct Hc as (pre & post & ->).
    apply is_substring_append_l, is_substring_append_r.
    apply join_substring, in_map_iff. eauto.
  - intros s question Hr.
    destruct (Ready_chain_built s Hr) as (docs & Hq & _ & _ & Hc).
    set (c := mkCollection dim COSINE (records docs)) in *.
    eexists (reply question c), _, _, _.
    split; [by apply ask_question_ready |].
    split; [reflexivity |]. split; [reflexivity |].
    split; [apply format_template |]. apply Hsub.
Qed.

Lemma prompt_contains_context_and_question_witness :
  Ready (services := Sample.services) Sample.ready
  /\ exists res s' text shown,
       ask_question (services := Sample.services) "hello" Sample.ready
       = Ok (Some res) s'
       /\ trace (world s')
          = trace (world Sample.ready)
            ++ [EmbedQuery "hello"; Search "pdf_documents" 3; Generate text]
            ++ shown
       /\ result res = llm (Services := Sample.services) text
       /\ Py.format template
            [("context",
              Py.join (newline +:+ newline)
                (page_content <$> source_documents res));
             ("question", "hello")]
          = Some text
       /\ is_substring
            (Py.join (newline +:+ newline)
               (page_content <$> source_documents res)) text
       /\ is_substring "hello" text.
Proof.
  split; [exact sample_ready |].
  exact (proj2 (prompt_contains_context_and_question (services := Sample.services))
           Sample.ready "hello" sample_ready).
Defined.

(** ** The interactive loop *)

Lemma interactive_qa_session_unfold {services : Services} (s : State) :
  interactive_qa_session s
  = qa_loop (stdin (world s))
      (mkState (globals s) (emits session_header (set_stdin (stdin (world s)) (world s)))).
Proof. destruct s as [g w]. destruct g, w. unfold interactive_qa_session. same_state. Qed.

(** C4: in a Ready state the session ends by itself exactly at the first line
    that equals ["exit"], ["quit"] or ["q"] up to the case of its letters.
    Every line before it, the empty line included, is handed to the answer
    pipeline, in order, and the loop goes on; the lines after it are left
    unread.  When no line of the input is a sentinel the loop hands all of
    them to the pipeline and never ends by itself: it is the end of the input
    that stops it, with [EOFError]. *)
Theorem interactive_loop_exit {services : Services} (s : State) :
  Ready s ->
  ~ is_sentinel ""
  /\ (forall pre line rest,
        stdin (world s) = pre ++ line :: rest ->
        Forall (fun l => ~ is_sentinel l) pre ->
        is_sentinel line ->
        exists s' events,
          interactive_qa_session s = Ok tt s'
          /\ stdin (world s') = rest
          /\ trace (world s') = trace (world s) ++ events
          /\ questions events = pre
          /\ last events = Some (Print goodbye))
  /\ (Forall (fun l => ~ is_sentinel l) (stdin (world s)) ->
      exists s' events,
        interactive_qa_session s = Raised EOFError s'
        /\ stdin (world s') = []
        /\ trace (world s') = trace (world s) ++ events
        /\ questions events = stdin (world s)).
Proof.
  intros Hr. destruct (Ready_chain_built s Hr) as (docs & Hb).
  set (c := mkCollection dim COSINE (records docs)).
  set (s1 := mkState (globals s)
               (emits session_header (set_stdin (stdin (world s)) (world s)))).
  assert (chain_built s1 docs) as Hb1 by (by apply chain_built_step).
  split; [apply exit_test_not; reflexivity |]. split.
  - intros pre line rest Hin Hpre Hline.
    exists (mkState (globals s1)
              (emits (loop_events c pre ++ [Input ask_prompt; Print goodbye])
                 (set_stdin rest (world s1)))),
           (session_header ++ loop_events c pre ++ [Input ask_prompt; Print goodbye]).
    split.
    + rewrite interactive_qa_session_unfold. fold s1.
      change (stdin (world s)) with (stdin (world s1)).
      apply (qa_loop_until_sentinel pre line rest s1 docs Hb1 Hin Hpre Hline).
    + split; [reflexivity |]. split; [simpl; by rewrite <- app_assoc |].
      split.
      * rewrite !questions_app, questions_loop_events. simpl. by rewrite app_nil_r.
      * change [Input ask_prompt; Print goodbye]
          with ([Input ask_prompt] ++ [Print goodbye]).
        rewrite !app_assoc. apply last_snoc.
  - intros Hall.
    exists (mkState (globals s1)
              (emits (loop_events c (stdin (world s)) ++ [Input ask_prompt])
                 (set_stdin [] (world s1)))),
           (session_header ++ loop_events c (stdin (world s)) ++ [Input ask_prompt]).
    split.
    + rewrite interactive_qa_session_unfold. fold s1.
      apply (qa_loop_eof (stdin (world s)) s1 docs Hb1 eq_refl Hall).
    + split; [reflexivity |]. split; [simpl; by rewrite <- app_assoc |].
      rewrite !questions_app, questions_loop_events. simpl. by rewrite app_nil_r.
Qed.

Lemma interactive_loop_exit_witness :
  Ready (services := Sample.services) Sample.ready
  /\ stdin (world Sample.ready) = ["hello"] ++ "Q" :: ["more"]
  /\ Forall (fun l => ~ is_sentinel l) ["hello"]
  /\ is_sentinel "Q"
  /\ exists s' events,
       interactive_qa_session (services := Sample.services) Sample.ready = Ok tt s'
       /\ stdin (world s') = ["more"]
       /\ trace (world s') = trace (world Sample.ready) ++ events
       /\ questions events = ["hello"]
       /\ last events = Some (Print goodbye).
Proof.
  assert (Forall (fun l => ~ is_sentinel l) ["hello"]) as Hpre
    by (constructor; [apply exit_test_not; reflexivity | constructor]).
  assert (is_sentinel "Q") as Hq by (apply exit_test_spec; reflexivity).
  split; [exact sample_ready |]. split; [reflexivity |].
  split; [exact Hpre |]. split; [exact Hq |].
  exact (proj1 (proj2 (interactive_loop_exit (services := Sample.services)
                         Sample.ready sample_ready))
           ["hello"] "Q" ["more"] eq_refl Hpre Hq).
Defined.

Example interactive_loop_reads_the_empty_line :
  questions
    (trace (world (final
       (interactive_qa_session (services := Sample.services)
          (with_world (set_stdin [""; "eXit"; "later"]) Sample.ready)))))
  = [""]
  /\ stdin (world (final
       (interactive_qa_session (services := Sample.services)
          (with_world (set_stdin [""; "eXit"; "later"]) Sample.ready))))
     = ["later"].
Proof. split; vm_compute; reflexivity. Qed.

(** ** What the session leaves untouched *)

Lemma no_pipeline_call_forallb (events : list Event) :
  no_pipeline_call events
  <-> forallb (fun e => negb (is_pipeline_call e)) events = true.
Proof.
  unfold no_pipeline_call. rewrite forallb_forall. split; intros Hall e He.
  - by rewrite Hall.
  - apply Hall in He. by destruct (is_pipeline_call e).
Qed.

Section Session.

Context {services : Services}.

(** In the Uninitialized state the last cell prints the "not ready" line,
    offers the example question and, when the offer is taken, rejects it. *)
Lemma start_session_uninitialized (s : State) :
  Uninitialized s ->
  exists events rest,
    final (start_session s)
    = mkState (globals s) (emits events (set_stdin rest (world s)))
    /\ no_pipeline_call events.
Proof.
  unfold Uninitialized. intros Hu. destruct s as [g w]. destruct g, w.
  run in Hu. subst. unfold start_session, ask_question. run.
  destruct stdin0 as [|line rest].
  - eexists [Print not_ready; Input _], [].
    split; [rewrite <- ?app_assoc; reflexivity |].
    by apply no_pipeline_call_forallb.
  - destruct (Py.contains (Py.lower line) ["y"; "yes"]).
    + eexists [Print not_ready; Input _; Print not_ready], rest.
      split; [rewrite <- ?app_assoc; reflexivity |].
      by apply no_pipeline_call_forallb.
    + eexists [Print not_ready; Input _], rest.
      split; [rewrite <- ?app_assoc; reflexivity |].
      by apply no_pipeline_call_forallb.
Qed.

Lemma qa_loop_frame (lines : list string) (s : State) (docs : list Document) :
  chain_built s docs ->
  exists events rest,
    final (qa_loop lines s)
    = mkState (globals s) (emits events (set_stdin rest (world s))).
Proof.
  revert s. induction lines as [|l0 ls IH]; intros s Hb.
  - destruct s as [g w]. destruct g, w. destruct stdin0 as [|line rest];
      eexists _, _; cbn [qa_loop]; run; reflexivity.
  - destruct (stdin (world s)) as [|line rest] eqn:Hin.
    + cbn [qa_loop]. rewrite (bind_raised _ _ _ _ _ (input_eof _ s Hin)).
      exists [Input ask_prompt], []. destruct s as [g w]. destruct g, w.
      run in Hin. subst. reflexivity.
    + destruct (Py.contains (Py.lower line) sentinels) eqn:E.
      * apply exit_test_spec in E.
        rewrite (qa_loop_sentinel s line l0 rest ls Hin E). by eexists _, _.
      * apply exit_test_not in E.
        rewrite (qa_loop_question s docs line l0 rest ls Hb Hin E).
        edestruct IH as (events & rest' & ->); [by apply chain_built_step |].
        eexists (_ ++ events), rest'.
        destruct s as [g w]. destruct g, w. run. by rewrite <- app_assoc.
Qed.

Lemma start_session_ready (s : State) (docs : list Document) :
  chain_built s docs ->
  exists events rest,
    final (start_session s)
    = mkState (globals s) (emits events (set_stdin rest (world s))).
Proof.
  intros Hb. pose proof Hb as (Hq & _).
  unfold start_session. unfold bind at 1. unfold read_globals at 1. rewrite Hq.
  rewrite interactive_qa_session_unfold.
  edestruct qa_loop_frame as (events & rest & ->); [by apply chain_built_step |].
  eexists (session_header ++ events), rest.
  destruct s as [g w]. destruct g, w. run. by rewrite <- app_assoc.
Qed.

Lemma accepted_true (docs : list Document) :
  (forall t, length (embed t) = get_sentence_embedding_dimension) ->
  accepted docs = true.
Proof.
  intros Hlen. unfold accepted, records. apply forallb_forall. intros p Hp.
  apply in_map_iff in Hp as (d & <- & _). simpl. by apply Nat.eqb_eq.
Qed.

(** Where a configured run ends: the collection of cell 5 is in the store,
    empty or with the records of the chunks, and the trace starts with the
    events of cells 3 to 5. *)
Lemma notebook_final (w : World) (v : string) :
  load_dotenv (environ w) !! "GOOGLE_API_KEY" = Some v ->
  exists g e f st docs events,
    final (notebook (mkState fresh_globals w))
    = mkState g
        (mkWorld e f
           (<["pdf_documents" := mkCollection dim COSINE (records docs)]> (qdrant w))
           st (trace w ++ startup_events v (qdrant w) ++ events))
    /\ embedding_dimension g = Some dim
    /\ accepted docs = true.
Proof.
  intros Hk. unfold notebook.
  destruct (pdfs w) as [listing|] eqn:Hf.
  2:{ rewrite (bind_ok _ _ _ _ _ (setup_no_folder w v Hk Hf)).
      edestruct start_session_uninitialized as (events & rest & -> & _);
        [reflexivity |].
      eexists _, _, _, _, [], _.
      split; [run; rewrite <- !app_assoc; reflexivity | by split]. }
  destruct (loads_ok_or_failure listing)
    as [Hok | (pre & fname & post & e & -> & Hpre & Hpdf & Hl)].
  2:{ rewrite (bind_raised _ _ _ _ _
                 (setup_load_fails w v pre post fname e Hk Hf Hpre Hpdf Hl)).
      eexists _, _, _, _, [], _.
      split; [run; rewrite <- ?app_assoc; reflexivity | by split]. }
  destruct (chunks_of listing) as [|d ds] eqn:Hc.
  { rewrite (bind_ok _ _ _ _ _ (setup_no_chunks w v listing Hk Hf Hok Hc)).
    edestruct start_session_uninitialized as (events & rest & -> & _);
      [reflexivity |].
    eexists _, _, _, _, [], _.
    split; [run; rewrite <- !app_assoc; reflexivity | by split]. }
  assert (chunks_of listing <> []) as Hne by congruence.
  destruct (accepted (chunks_of listing)) eqn:Ha.
  2:{ rewrite (bind_raised _ _ _ _ _ (setup_rejected w v listing Hk Hf Hok Hne Ha)).
      eexists _, _, _, _, [], _.
      split; [run; rewrite <- ?app_assoc; reflexivity | by split]. }
  rewrite (bind_ok _ _ _ _ _ (setup_ready w v listing Hk Hf Hok Hne Ha)).
  edestruct (start_session_ready) as (events & rest & ->).
  { repeat split; [exact Hne |]. cbn [world qdrant]. apply lookup_insert_eq. }
  eexists _, _, _, _, (chunks_of listing), _.
  split; [run; rewrite <- !app_assoc; reflexivity | by split].
Qed.

End Session.

(** ** Configuration, readiness and the dimension of the collection *)

(** C9: in the Uninitialized state [ask_question] prints the "not ready"
    line and returns [None]; nothing else happens, so the question is neither
    embedded nor searched for nor sent to the LLM, and the same holds for the
    example question the last cell offers.  The chain is bound at the end of
    the setup only in a run where the key was configured, the collection was
    created, the folder yielded at least one chunk and the chunks were
    embedded and upserted into the collection. *)
Theorem uninitialized_rejects_questions {services : Services} :
  (forall (s : State) (question : string),
     Uninitialized s ->
     exists s',
       ask_question question s = Ok None s'
       /\ trace (world s') = trace (world s) ++ [Print not_ready]
       /\ globals s' = globals s
       /\ qdrant (world s') = qdrant (world s))
  /\ (forall s : State,
        Uninitialized s ->
        exists events,
          trace (world (final (start_session s))) = trace (world s) ++ events
          /\ no_pipeline_call events
          /\ Uninitialized (final (start_session s)))
  /\ (forall w : World,
        is_Some (qa_chain (globals (final (setup (mkState fresh_globals w))))) ->
        exists v listing s',
          setup (mkState fresh_globals w) = Ok tt s'
          /\ load_dotenv (environ w) !! "GOOGLE_API_KEY" = Some v
          /\ pdfs w = Some listing
          /\ chunks_of listing <> []
          /\ documents (globals s') = Some (chunks_of listing)
          /\ vectorstore (globals s') = Some "pdf_documents"
          /\ qa_chain (globals s') = Some (mkRetrievalQA "pdf_documents" 3 template)
          /\ qdrant (world s') !! "pdf_documents"
             = Some (mkCollection get_sentence_embedding_dimension COSINE
                       (records (chunks_of listing)))
          /\ trace (world s')
             = trace w ++ startup_events v (qdrant w) ++ ingestion_events listing
               ++ indexing_events (chunks_of listing) "pdf_documents"
               ++ [prompt_created; chain_ready]).
Proof.
  split; [| split].
  - intros s question Hu. eexists.
    split; [by apply ask_question_uninitialized |]. by destruct s as [g []].
  - intros s Hu.
    destruct (start_session_uninitialized s Hu) as (events & rest & -> & Hno).
    exists events. split; [by destruct s as [g []] |]. split; [exact Hno | exact Hu].
  - intros w Hq.
    destruct (load_dotenv (environ w) !! "GOOGLE_API_KEY") as [v|] eqn:Hk.
    2:{ rewrite setup_no_key in Hq by done. by destruct Hq. }
    destruct (pdfs w) as [listing|] eqn:Hf.
    2:{ rewrite (setup_no_folder w v Hk Hf) in Hq. by destruct Hq. }
    destruct (loads_ok_or_failure listing)
      as [Hok | (pre & fname & post & e & -> & Hpre & Hpdf & Hl)].
    2:{ rewrite (setup_load_fails w v pre post fname e Hk Hf Hpre Hpdf Hl) in Hq.
        by destruct Hq. }
    assert (chunks_of listing = [] \/ chunks_of listing <> []) as [Hc | Hne]
      by (destruct (chunks_of listing); [by left | by right]).
    { rewrite (setup_no_chunks w v listing Hk Hf Hok Hc) in Hq. by destruct Hq. }
    destruct (accepted (chunks_of listing)) eqn:Ha.
    2:{ rewrite (setup_rejected w v listing Hk Hf Hok Hne Ha) in Hq.
        by destruct Hq. }
    eexists v, listing, _.
    split; [exact (setup_ready w v listing Hk Hf Hok Hne Ha) |].
    repeat split; try done.
    cbn [world qdrant]. apply lookup_insert_eq.
Qed.

Lemma uninitialized_rejects_questions_witness :
  Uninitialized
    (final (setup (services := Sample.services) (Sample.start Sample.world_no_pdf)))
  /\ exists s',
       ask_question (services := Sample.services) "What is RAG?"
         (final (setup (services := Sample.services)
                   (Sample.start Sample.world_no_pdf)))
       = Ok None s'
       /\ trace (world s')
          = trace (world (final (setup (services := Sample.services)
                                   (Sample.start Sample.world_no_pdf))))
            ++ [Print not_ready]
       /\ globals s'
          = globals (final (setup (services := Sample.services)
                              (Sample.start Sample.world_no_pdf)))
       /\ qdrant (world s')
          = qdrant (world (final (setup (services := Sample.services)
                                    (Sample.start Sample.world_no_pdf)))).
Proof.
  assert (Uninitialized
            (final (setup (services := Sample.services)
                      (Sample.start Sample.world_no_pdf)))) as Hu
    by reflexivity.
  split; [exact Hu |].
  exact (proj1 (uninitialized_rejects_questions (services := Sample.services))
           _ "What is RAG?" Hu).
Defined.

(** C8: when [os.getenv] finds no key once [load_dotenv] has run, cell 3
    raises at the assignment to [os.environ] and the run stops there: nothing
    is printed, no service is called and no name other than the key is bound.
    When it finds a key, cell 3 succeeds, binds and configures the key, and
    the run goes on with the following cells. *)
Theorem api_key_required {services : Services} (w : World) :
  (load_dotenv (environ w) !! "GOOGLE_API_KEY" = None ->
   exists s',
     configure_environment (mkState fresh_globals w)
     = Raised (TypeError "str expected, not NoneType") s'
     /\ notebook (mkState fresh_globals w)
        = Raised (TypeError "str expected, not NoneType") s'
     /\ globals s' = fresh_globals
     /\ trace (world s') = trace w
     /\ qdrant (world s') = qdrant w
     /\ pdfs (world s') = pdfs w
     /\ stdin (world s') = stdin w)
  /\ (forall v,
        load_dotenv (environ w) !! "GOOGLE_API_KEY" = Some v ->
        exists s' later,
          configure_environment (mkState fresh_globals w) = Ok tt s'
          /\ GOOGLE_API_KEY (globals s') = Some v
          /\ environ (world s') !! "GOOGLE_API_KEY" = Some v
          /\ trace (world s')
             = trace w ++ [Configure v; Print "✅ Google API key configured"]
          /\ notebook (mkState fresh_globals w)
             = ((setup_embeddings ;; connect_qdrant ;; load_documents ;;
                 index_documents ;; setup_prompt ;; create_chain) ;;
                start_session) s'
          /\ trace (world (final (notebook (mkState fresh_globals w))))
             = trace w
               ++ [Configure v;
                   Print "✅ Google API key configured";
                   Print ("✅ Encoder ready, dim = "
                          +:+ pretty get_sentence_embedding_dimension)]
               ++ later).
Proof.
  split.
  - intros Hk. eexists.
    split; [exact (configure_environment_missing (mkState fresh_globals w) Hk) |].
    split.
    + unfold notebook. by rewrite (bind_raised _ _ _ _ _ (setup_no_key w Hk)).
    + by destruct w.
  - intros v Hk.
    pose proof (configure_environment_present (mkState fresh_globals w) v Hk) as Hc.
    destruct (notebook_final w v Hk) as (g & e & f & st & docs & events & Hfin & _).
    eexists _, (ensure_events "pdf_documents" dim (qdrant w) ++ events).
    split; [exact Hc |]. split; [reflexivity |].
    split; [cbn [world environ emits set_environ]; apply lookup_insert_eq |].
    split; [by destruct w |]. split.
    + unfold notebook, setup. unfold bind at 1.
      by rewrite (bind_ok _ _ _ _ _ Hc).
    + rewrite Hfin. cbn [world trace]. unfold startup_events.
      by rewrite <- !app_assoc.
Qed.

Lemma api_key_required_witness :
  load_dotenv (Services := Sample.services) (environ Sample.world_no_key)
    !! "GOOGLE_API_KEY" = None
  /\ exists s',
       configure_environment (services := Sample.services)
         (mkState fresh_globals Sample.world_no_key)
       = Raised (TypeError "str expected, not NoneType") s'
       /\ notebook (services := Sample.services)
            (mkState fresh_globals Sample.world_no_key)
          = Raised (TypeError "str expected, not NoneType") s'
       /\ globals s' = fresh_globals
       /\ trace (world s') = trace Sample.world_no_key
       /\ qdrant (world s') = qdrant Sample.world_no_key
       /\ pdfs (world s') = pdfs Sample.world_no_key
       /\ stdin (world s') = stdin Sample.world_no_key.
Proof.
  split; [reflexivity |].
  apply (proj1 (api_key_required (services := Sample.services) Sample.world_no_key)).
  reflexivity.
Defined.

Example api_key_present_example :
  raised (configure_environment (services := Sample.services)
            (mkState fresh_globals Sample.world)) = false
  /\ raised (configure_environment (services := Sample.services)
               (mkState fresh_globals Sample.world_no_key)) = true.
Proof. split; vm_compute; reflexivity. Qed.

(** C7: in every configured run the collection [pdf_documents] is created
    with the dimension the loaded model reports, bound once to
    [embedding_dimension] in cell 4, and with the cosine metric.  As the
    model's vectors have the length it reports, the dimension of the
    collection is the length of every embedding, and it still is, for the
    collection and for every point stored in it, when the run ends. *)
Theorem collection_dimension_matches_embedding {services : Services}
    (w : World) (v : string) :
  (forall t, length (embed t) = get_sentence_embedding_dimension) ->
  load_dotenv (environ w) !! "GOOGLE_API_KEY" = Some v ->
  exists c,
    qdrant (world (final (notebook (mkState fresh_globals w)))) !! "pdf_documents"
    = Some c
    /\ embedding_dimension (globals (final (notebook (mkState fresh_globals w))))
       = Some get_sentence_embedding_dimension
    /\ In (CreateCollection "pdf_documents" get_sentence_embedding_dimension COSINE)
          (trace (world (final (notebook (mkState fresh_globals w)))))
    /\ size c = get_sentence_embedding_dimension
    /\ distance c = COSINE
    /\ (forall t, length (embed t) = size c)
    /\ Forall (fun p => length (vector p) = size c) (points c).
Proof.
  intros Hlen Hk.
  destruct (notebook_final w v Hk) as (g & e & f & st & docs & events & -> & Hd & _).
  eexists. cbn [world globals qdrant trace].
  split; [apply lookup_insert_eq |]. split; [exact Hd |]. split.
  - unfold startup_events, ensure_events. rewrite !in_app_iff.
    right. left. right. right. apply in_eq.
  - cbn [size distance points]. repeat split; [exact Hlen |].
    unfold records. apply Forall_fmap, Forall_forall. intros d _. apply Hlen.
Qed.

Lemma collection_dimension_matches_embedding_witness :
  (forall t, length (embed (Services := Sample.services) t)
             = get_sentence_embedding_dimension (Services := Sample.services))
  /\ load_dotenv (Services := Sample.services) (environ Sample.world_stale)
       !! "GOOGLE_API_KEY" = Some "k"
  /\ exists c,
       qdrant (world (final (notebook (services := Sample.services)
                               (mkState fresh_globals Sample.world_stale))))
         !! "pdf_documents"
       = Some c
       /\ embedding_dimension
            (globals (final (notebook (services := Sample.services)
                               (mkState fresh_globals Sample.world_stale))))
          = Some (get_sentence_embedding_dimension (Services := Sample.services))
       /\ In (CreateCollection "pdf_documents"
                (get_sentence_embedding_dimension (Services := Sample.services))
                COSINE)
             (trace (world (final (notebook (services := Sample.services)
                                     (mkState fresh_globals Sample.world_stale)))))
       /\ size c = get_sentence_embedding_dimension (Services := Sample.services)
       /\ distance c = COSINE
       /\ (forall t, length (embed (Services := Sample.services) t) = size c)
       /\ Forall (fun p => length (vector p) = size c) (points c).
Proof.
  assert (forall t, length (embed (Services := Sample.services) t)
                    = get_sentence_embedding_dimension (Services := Sample.services))
    as Hlen by (intros t; reflexivity).
  split; [exact Hlen |]. split; [reflexivity |].
  exact (collection_dimension_matches_embedding (services := Sample.services)
           Sample.world_stale "k" Hlen eq_refl).
Defined.

(** * Further properties of the cells *)

(** ** The last cell without a chain *)

(** X1: when the chain is not bound the last cell prints the "not ready"
    line and offers the example question.  Whatever the reply is, nothing is
    answered: a reply [y] or [yes] (in any case) only gets the "not ready"
    line a second time, any other reply ends the cell, and the end of the
    input raises [EOFError] at the offer. *)
Theorem session_start_without_chain {services : Services} (s : State) :
  Uninitialized s ->
  match stdin (world s) with
  | [] =>
      start_session s
      = Raised EOFError
          (mkState (globals s)
             (emits [Print not_ready; Input example_offer] (world s)))
  | answer :: rest =>
      start_session s
      = Ok tt
          (mkState (globals s)
             (emits ([Print not_ready; Input example_offer]
                     ++ (if Py.contains (Py.lower answer) ["y"; "yes"]
                         then [Print not_ready] else []))
                (set_stdin rest (world s))))
  end.
Proof.
  unfold Uninitialized. intros Hu. destruct s as [g w]. destruct g, w.
  run in Hu. subst. unfold start_session, ask_question. run.
  destruct stdin0 as [|answer rest]; [rewrite <- ?app_assoc; reflexivity |].
  destruct (Py.contains (Py.lower answer) ["y"; "yes"]);
    rewrite <- ?app_assoc; reflexivity.
Qed.

Lemma session_start_without_chain_witness :
  Uninitialized Sample.no_pdf_end
  /\ match stdin (world Sample.no_pdf_end) with
     | [] =>
         start_session (services := Sample.services) Sample.no_pdf_end
         = Raised EOFError
             (mkState (globals Sample.no_pdf_end)
                (emits [Print not_ready; Input example_offer]
                   (world Sample.no_pdf_end)))
     | answer :: rest =>
         start_session (services := Sample.services) Sample.no_pdf_end
         = Ok tt
             (mkState (globals Sample.no_pdf_end)
                (emits ([Print not_ready; Input example_offer]
                        ++ (if Py.contains (Py.lower answer) ["y"; "yes"]
                            then [Print not_ready] else []))
                   (set_stdin rest (world Sample.no_pdf_end))))
     end.
Proof.
  assert (Uninitialized Sample.no_pdf_end) as Hu by reflexivity.
  split; [exact Hu |].
  exact (session_start_without_chain (services := Sample.services)
           Sample.no_pdf_end Hu).
Defined.

Section Unbound.

Context {services : Services}.

Lemma qa_loop_refuses (pre : list string) (line : string) (rest : list string)
    (s : State) :
  Uninitialized s ->
  stdin (world s) = pre ++ line :: rest ->
  Forall (fun l => ~ is_sentinel l) pre ->
  is_sentinel line ->
  qa_loop (stdin (world s)) s
  = Ok tt
      (mkState (globals s)
         (emits (refusal_events pre ++ [Input ask_prompt; Print goodbye])
            (set_stdin rest (world s)))).
Proof.
  revert s. induction pre as [|l pre IH]; intros s Hu Hin Hpre Hs.
  - rewrite Hin. simpl app. by apply (qa_loop_sentinel s line line rest rest).
  - apply Forall_cons in Hpre as [Hl Hpre].
    rewrite Hin at 1. simpl app. cbn [qa_loop].
    rewrite (bind_ok _ _ _ _ _ (input_spec _ l (pre ++ line :: rest) s Hin)).
    apply exit_test_not in Hl. cbv beta. rewrite Hl.
    erewrite bind_ok by (apply ask_question_uninitialized; exact Hu).
    specialize (IH (mkState (globals s)
      (emits [Input ask_prompt; Print not_ready]
         (set_stdin (pre ++ line :: rest) (world s))))).
    simpl stdin in IH.
    assert (forall X, X = qa_loop (pre ++ line :: rest)
              (mkState (globals s)
                 (emits [Input ask_prompt; Print not_ready]
                    (set_stdin (pre ++ line :: rest) (world s)))) ->
            qa_loop (pre ++ line :: rest)
              (mkState (globals s)
                 (emits [Print not_ready]
                    (emits [Input (newline +:+ "Enter your question: ")]
                       (set_stdin (pre ++ line :: rest) (world s))))) = X)
      as Hsame.
    { intros X ->. f_equal. destruct s as [g w]. destruct g, w. same_state. }
    apply Hsame. rewrite IH; [| exact Hu | by destruct s as [g []] | done | done].
    destruct s as [g w]. destruct g, w. unfold refusal_events. same_state.
Qed.

End Unbound.

(** X2: the interactive session does not need the chain to run.  Called
    while the chain is not bound, it still ends at the first line that is a
    sentinel up to case and leaves the later lines unread; every line before
    it is read and gets the "not ready" line, and no request goes to the
    encoder, the store or the LLM. *)
Theorem interactive_session_without_chain {services : Services} (s : State)
    (pre : list string) (line : string) (rest : list string) :
  Uninitialized s ->
  stdin (world s) = pre ++ line :: rest ->
  Forall (fun l => ~ is_sentinel l) pre ->
  is_sentinel line ->
  exists events,
    interactive_qa_session s
    = Ok tt (mkState (globals s) (emits events (set_stdin rest (world s))))
    /\ events
       = session_header
         ++ flat_map (fun _ : string => [Input ask_prompt; Print not_ready]) pre
         ++ [Input ask_prompt; Print goodbye]
    /\ no_pipeline_call events.
Proof.
  intros Hu Hin Hpre Hline.
  exists (session_header
          ++ flat_map (fun _ : string => [Input ask_prompt; Print not_ready]) pre
          ++ [Input ask_prompt; Print goodbye]).
  split; [| split; [reflexivity |]].
  - rewrite interactive_qa_session_unfold.
    set (s1 := mkState (globals s)
                 (emits session_header (set_stdin (stdin (world s)) (world s)))).
    change (stdin (world s)) with (stdin (world s1)).
    rewrite (qa_loop_refuses pre line rest s1 Hu Hin Hpre Hline).
    subst s1. destruct s as [g w]. destruct g, w. unfold refusal_events.
    same_state.
  - apply no_pipeline_call_forallb. rewrite !forallb_app.
    repeat (apply andb_true_intro; split); try reflexivity.
    clear. induction pre as [|l pre IH]; [reflexivity | exact IH].
Qed.

Lemma interactive_session_without_chain_witness :
  Uninitialized (with_world (set_stdin ["hi"; ""; "Quit"; "left"]) Sample.no_pdf_end)
  /\ stdin (world (with_world (set_stdin ["hi"; ""; "Quit"; "left"])
                     Sample.no_pdf_end))
     = ["hi"; ""] ++ "Quit" :: ["left"]
  /\ Forall (fun l => ~ is_sentinel l) ["hi"; ""]
  /\ is_sentinel "Quit"
  /\ exists events,
       interactive_qa_session (services := Sample.services)
         (with_world (set_stdin ["hi"; ""; "Quit"; "left"]) Sample.no_pdf_end)
       = Ok tt
           (mkState
              (globals (with_world (set_stdin ["hi"; ""; "Quit"; "left"])
                          Sample.no_pdf_end))
              (emits events
                 (set_stdin ["left"]
                    (world (with_world (set_stdin ["hi"; ""; "Quit"; "left"])
                              Sample.no_pdf_end)))))
       /\ events
          = session_header
            ++ flat_map (fun _ : string => [Input ask_prompt; Print not_ready])
                 ["hi"; ""]
            ++ [Input ask_prompt; Print goodbye]
       /\ no_pipeline_call events.
Proof.
  assert (Uninitialized
            (with_world (set_stdin ["hi"; ""; "Quit"; "left"]) Sample.no_pdf_end))
    as Hu by reflexivity.
  assert (Forall (fun l => ~ is_sentinel l) ["hi"; ""]) as Hpre
    by (repeat constructor; apply exit_test_not; reflexivity).
  assert (is_sentinel "Quit") as Hq by (apply exit_test_spec; reflexivity).
  split; [exact Hu |]. split; [reflexivity |].
  split; [exact Hpre |]. split; [exact Hq |].
  exact (interactive_session_without_chain (services := Sample.services)
           _ ["hi"; ""] "Quit" ["left"] Hu eq_refl Hpre Hq).
Defined.

(** ** Asking questions *)



(** X5: an answer only ever carries chunks of this run.  In a Ready state
    every source document returned with an answer is one of the chunks bound
    to [documents] by the ingestion cell (so nothing of a collection left by
    an earlier run can come back), and the reply echoes the question. *)
Theorem retrieved_chunks_are_ingested {services : Services} (s : State)
    (question : string) :
  Ready s ->
  exists docs res s',
    documents (globals s) = Some docs
    /\ ask_question question s = Ok (Some res) s'
    /\ query res = question
    /\ (forall d, In d (source_documents res) -> In d docs)
    /\ length (source_documents res) <= length docs.
Proof.
  intros Hr. destruct (Ready_chain_built s Hr) as (docs & Hq & Hd & _ & Hc).
  set (c := mkCollection dim COSINE (records docs)) in *.
  destruct (search_spec (fun p => similarity (embed question) (vector p)) k c)
    as (Hlen & _ & rest & Hperm & _).
  fold (retrieved question c) in Hlen, Hperm.
  eexists docs, (reply question c), _.
  split; [exact Hd |]. split; [by apply ask_question_ready |].
  split; [reflexivity |]. cbn [reply source_documents]. split.
  - intros d Hin. apply in_map_iff in Hin as (p & <- & Hp).
    assert (In p (points c)) as Hpc.
    { eapply Permutation_in; [symmetry; exact Hperm |].
      apply in_or_app. by left. }
    cbn [c points] in Hpc. unfold records in Hpc.
    apply in_map_iff in Hpc as (d & <- & Hdin). exact Hdin.
  - rewrite length_fmap, Hlen. cbn [c points]. unfold records.
    rewrite length_fmap. lia.
Qed.

Lemma retrieved_chunks_are_ingested_witness :
  Ready (services := Sample.services) Sample.ready
  /\ exists docs res s',
       documents (globals Sample.ready) = Some docs
       /\ ask_question (services := Sample.services) "hello" Sample.ready
          = Ok (Some res) s'
       /\ query res = "hello"
       /\ (forall d, In d (source_documents res) -> In d docs)
       /\ length (source_documents res) <= length docs.
Proof.
  split; [exact sample_ready |].
  exact (retrieved_chunks_are_ingested (services := Sample.services) Sample.ready
           "hello" sample_ready).
Defined.

(** ** Outcomes of the setup *)

(** X6: what is enough for the chain to be built.  When a key is found, the
    folder exists, the loader raises on none of its PDF files and gets at
    least one chunk out of them, and the encoder's vectors have the length it
    reports, the setup returns without an error in a Ready state: the vector
    store handle and the chain are bound and the collection holds exactly one
    point per chunk. *)
Theorem setup_reaches_ready {services : Services} (w : World) (v : string)
    (listing : list string) :
  (forall t, length (embed t) = get_sentence_embedding_dimension) ->
  load_dotenv (environ w) !! "GOOGLE_API_KEY" = Some v ->
  pdfs w = Some listing ->
  (forall fname,
     In fname listing -> Py.endswith (Py.lower fname) ".pdf" = true ->
     exists pages,
       load_and_split (folder_path +:+ "/" +:+ fname) 1000 200 = inr pages) ->
  chunks_of listing <> [] ->
  exists s' c,
    setup (mkState fresh_globals w) = Ok tt s'
    /\ Ready s'
    /\ vectorstore (globals s') = Some "pdf_documents"
    /\ qa_chain (globals s') = Some (mkRetrievalQA "pdf_documents" 3 template)
    /\ qdrant (world s') !! "pdf_documents" = Some c
    /\ payload <$> points c = chunks_of listing.
Proof.
  intros Hlen Hk Hf Hok Hne.
  pose proof (setup_ready w v listing Hk Hf Hok Hne (accepted_true _ Hlen)) as Hrun.
  eexists _, _. split; [exact Hrun |].
  split; [eapply Ready_setup; [exact Hrun | by eexists] |].
  split; [reflexivity |]. split; [reflexivity |].
  split; [cbn [world qdrant]; apply lookup_insert_eq |].
  cbn [points]. unfold records. rewrite <- list_fmap_compose.
  apply list_fmap_id.
Qed.

Lemma setup_reaches_ready_witness :
  (forall t, length (embed (Services := Sample.services) t)
             = get_sentence_embedding_dimension (Services := Sample.services))
  /\ load_dotenv (Services := Sample.services) (environ Sample.world)
       !! "GOOGLE_API_KEY" = Some "k"
  /\ pdfs Sample.world = Some ["a.PDF"; "b.txt"]
  /\ (forall fname,
        In fname ["a.PDF"; "b.txt"] -> Py.endswith (Py.lower fname) ".pdf" = true ->
        exists pages,
          load_and_split (Services := Sample.services)
            (folder_path +:+ "/" +:+ fname) 1000 200 = inr pages)
  /\ chunks_of (services := Sample.services) ["a.PDF"; "b.txt"] <> []
  /\ exists s' c,
       setup (services := Sample.services) (mkState fresh_globals Sample.world)
       = Ok tt s'
       /\ Ready (services := Sample.services) s'
       /\ vectorstore (globals s') = Some "pdf_documents"
       /\ qa_chain (globals s') = Some (mkRetrievalQA "pdf_documents" 3 template)
       /\ qdrant (world s') !! "pdf_documents" = Some c
       /\ payload <$> points c
          = chunks_of (services := Sample.services) ["a.PDF"; "b.txt"].
Proof.
  assert (forall t, length (embed (Services := Sample.services) t)
                    = get_sentence_embedding_dimension (Services := Sample.services))
    as Hlen by (intros t; reflexivity).
  assert (forall fname,
            In fname ["a.PDF"; "b.txt"] ->
            Py.endswith (Py.lower fname) ".pdf" = true ->
            exists pages,
              load_and_split (Services := Sample.services)
                (folder_path +:+ "/" +:+ fname) 1000 200 = inr pages) as Hok
    by (intros fname _ _; eexists; reflexivity).
  assert (chunks_of (services := Sample.services) ["a.PDF"; "b.txt"] <> [])
    as Hne by discriminate.
  split; [exact Hlen |]. split; [reflexivity |]. split; [reflexivity |].
  split; [exact Hok |]. split; [exact Hne |].
  exact (setup_reaches_ready (services := Sample.services) Sample.world "k"
           ["a.PDF"; "b.txt"] Hlen eq_refl eq_refl Hok Hne).
Defined.

Lemma chunks_of_blank {services : Services} (listing : list string) :
  (forall fname, In fname listing -> is_pdf fname = true -> loaded fname = inr []) ->
  chunks_of listing = [].
Proof.
  induction listing as [|fname listing IH]; intros Hblank; [reflexivity |].
  rewrite chunks_of_cons, IH by (intros f Hin; apply Hblank; by right).
  destruct (is_pdf fname) eqn:E; [| reflexivity].
  unfold pages_of. by rewrite (Hblank fname (or_introl eq_refl) E).
Qed.

(** X7: PDF files without text.  When a key is found and the folder holds
    files that pass the extension test but the loader gets no chunk out of
    them, the ingestion cell announces every file and reports success with 0
    chunks; the indexing cell then finds [documents] empty and skips the
    upload, so the collection stays empty and neither the vector store nor
    the chain is bound. *)
Theorem empty_pdfs_skip_indexing {services : Services} (w : World) (v : string)
    (listing : list string) :
  load_dotenv (environ w) !! "GOOGLE_API_KEY" = Some v ->
  pdfs w = Some listing ->
  List.filter is_pdf listing <> [] ->
  (forall fname,
     In fname listing -> is_pdf fname = true ->
     load_and_split (folder_path +:+ "/" +:+ fname) 1000 200 = inr []) ->
  exists s',
    setup (mkState fresh_globals w) = Ok tt s'
    /\ pdf_files (globals s') = Some (length (List.filter is_pdf listing))
    /\ documents (globals s') = Some []
    /\ In (Print ("✅ Loaded and split 0 chunks from "
                  +:+ pretty (length (List.filter is_pdf listing))
                  +:+ " PDF files."))
          (trace (world s'))
    /\ (forall fname, In fname listing -> is_pdf fname = true ->
          In (Print ("Loading " +:+ fname +:+ "...")) (trace (world s')))
    /\ In (Print no_documents) (trace (world s'))
    /\ qdrant (world s') !! "pdf_documents"
       = Some (mkCollection get_sentence_embedding_dimension COSINE [])
    /\ vectorstore (globals s') = None
    /\ qa_chain (globals s') = None.
Proof.
  intros Hk Hf Hsome Hblank.
  assert (loads_ok listing) as Hok by (intros fname Hin Hpdf; eauto).
  assert (chunks_of listing = []) as Hc by (by apply chunks_of_blank).
  eexists.
  split; [exact (setup_no_chunks w v listing Hk Hf Hok Hc) |].
  cbn [globals world pdf_files documents trace qdrant vectorstore qa_chain].
  split; [reflexivity |]. split; [reflexivity |].
  unfold ingestion_events. rewrite Hc.
  assert (ingestion_summary (length (@nil Document))
            (length (List.filter is_pdf listing))
          = "✅ Loaded and split 0 chunks from "
            +:+ pretty (length (List.filter is_pdf listing)) +:+ " PDF files.")
    as ->.
  { unfold ingestion_summary.
    destruct (List.filter is_pdf listing) as [|f fs]; [done |]. reflexivity. }
  split; [rewrite !in_app_iff; right; right; left; right; apply in_eq |].
  split.
  - intros fname Hin Hpdf. rewrite !in_app_iff. right. right. left. left.
    apply in_flat_map. exists fname. split; [| apply in_eq].
    apply filter_In. by split.
  - split; [rewrite !in_app_iff; right; right; right; apply in_eq |].
    repeat split. apply lookup_insert_eq.
Qed.

Lemma empty_pdfs_skip_indexing_witness :
  load_dotenv (Services := Sample.blank_services) (environ Sample.world)
    !! "GOOGLE_API_KEY" = Some "k"
  /\ pdfs Sample.world = Some ["a.PDF"; "b.txt"]
  /\ List.filter is_pdf ["a.PDF"; "b.txt"] <> []
  /\ (forall fname,
        In fname ["a.PDF"; "b.txt"] -> is_pdf fname = true ->
        load_and_split (Services := Sample.blank_services)
          (folder_path +:+ "/" +:+ fname) 1000 200 = inr [])
  /\ exists s',
       setup (services := Sample.blank_services) (mkState fresh_globals Sample.world)
       = Ok tt s'
       /\ pdf_files (globals s')
          = Some (length (List.filter is_pdf ["a.PDF"; "b.txt"]))
       /\ documents (globals s') = Some []
       /\ In (Print ("✅ Loaded and split 0 chunks from "
                     +:+ pretty (length (List.filter is_pdf ["a.PDF"; "b.txt"]))
                     +:+ " PDF files."))
             (trace (world s'))
       /\ (forall fname, In fname ["a.PDF"; "b.txt"] -> is_pdf fname = true ->
             In (Print ("Loading " +:+ fname +:+ "...")) (trace (world s')))
       /\ In (Print no_documents) (trace (world s'))
       /\ qdrant (world s') !! "pdf_documents"
          = Some (mkCollection
                    (get_sentence_embedding_dimension
                       (Services := Sample.blank_services)) COSINE [])
       /\ vectorstore (globals s') = None
       /\ qa_chain (globals s') = None.
Proof.
  assert (List.filter is_pdf ["a.PDF"; "b.txt"] <> []) as Hsome by discriminate.
  assert (forall fname,
            In fname ["a.PDF"; "b.txt"] -> is_pdf fname = true ->
            load_and_split (Services := Sample.blank_services)
              (folder_path +:+ "/" +:+ fname) 1000 200 = inr []) as Hblank
    by (intros fname _ _; reflexivity).
  split; [reflexivity |]. split; [reflexivity |]. split; [exact Hsome |].
  split; [exact Hblank |].
  exact (empty_pdfs_skip_indexing (services := Sample.blank_services) Sample.world
           "k" ["a.PDF"; "b.txt"] eq_refl eq_refl Hsome Hblank).
Defined.

(** X8: running the ingestion cell again does not pile up chunks.  As long
    as the loader raises on no matching entry, a second run over the same
    folder rebinds [documents] and [pdf_files] from scratch: they hold the
    chunks and the number of the matching files once, not twice.  When the
    folder did not exist, the first run creates it and the second one finds
    it empty and reports zero files. *)
Theorem load_documents_rerun {services : Services} (s : State) :
  (forall fname,
     In fname (default [] (pdfs (world s))) ->
     Py.endswith (Py.lower fname) ".pdf" = true ->
     exists pages,
       load_and_split (folder_path +:+ "/" +:+ fname) 1000 200 = inr pages) ->
  exists s1 s2,
    load_documents s = Ok tt s1
    /\ load_documents s1 = Ok tt s2
    /\ pdfs (world s2) = Some (default [] (pdfs (world s)))
    /\ documents (globals s2) = Some (chunks_of (default [] (pdfs (world s))))
    /\ pdf_files (globals s2)
       = Some (length (List.filter is_pdf (default [] (pdfs (world s)))))
    /\ qdrant (world s2) = qdrant (world s)
    /\ (pdfs (world s) <> None ->
        documents (globals s2) = documents (globals s1)
        /\ pdf_files (globals s2) = pdf_files (globals s1))
    /\ (pdfs (world s) = None ->
        documents (globals s1) = documents (globals s)
        /\ In (Makedirs folder_path) (trace (world s1))
        /\ last (trace (world s2)) = Some (Print (ingestion_summary 0 0))).
Proof.
  intros Hok. destruct (pdfs (world s)) as [listing|] eqn:Hf.
  - eexists _, _. split; [exact (load_documents_listing s listing Hf Hok) |].
    split; [apply (load_documents_listing _ listing);
            [by destruct s as [g []] | exact Hok] |].
    destruct s as [g w]. destruct g, w. run in Hf. subst.
    repeat split; try done.
  - eexists _, _. split; [exact (load_documents_no_folder s Hf) |].
    split; [apply (load_documents_listing _ []); [reflexivity | intros f []] |].
    destruct s as [g w]. destruct g, w. run in Hf. subst.
    repeat split; try done.
    + cbn. rewrite in_app_iff. right. apply in_eq.
    + cbn [world trace emits]. rewrite !app_assoc. apply last_snoc.
Qed.

Lemma load_documents_rerun_witness :
  (forall fname,
     In fname (default [] (pdfs (world (Sample.start Sample.world)))) ->
     Py.endswith (Py.lower fname) ".pdf" = true ->
     exists pages,
       load_and_split (Services := Sample.services)
         (folder_path +:+ "/" +:+ fname) 1000 200 = inr pages)
  /\ exists s1 s2,
       load_documents (services := Sample.services) (Sample.start Sample.world)
       = Ok tt s1
       /\ load_documents (services := Sample.services) s1 = Ok tt s2
       /\ documents (globals s2) = documents (globals s1)
       /\ option_map (@length Document) (documents (globals s2)) = Some 4
       /\ pdf_files (globals s2) = Some 1.
Proof.
  assert (forall fname,
            In fname (default [] (pdfs (world (Sample.start Sample.world)))) ->
            Py.endswith (Py.lower fname) ".pdf" = true ->
            exists pages,
              load_and_split (Services := Sample.services)
                (folder_path +:+ "/" +:+ fname) 1000 200 = inr pages) as Hok
    by (intros fname _ _; eexists; reflexivity).
  split; [exact Hok |].
  destruct (load_documents_rerun (services := Sample.services)
              (Sample.start Sample.world) Hok)
    as (s1 & s2 & H1 & H2 & _ & Hd & Hn & _ & Hsame & _).
  destruct Hsame as [Hsame _]; [discriminate |].
  exists s1, s2. split; [exact H1 |]. split; [exact H2 |].
  split; [exact Hsame |]. split; [by rewrite Hd | exact Hn].
Defined.

(** X9: cell 5 deletes before it looks at the dimension.  When
    [embedding_dimension] is not bound (cell 4 has not run) the cell raises
    [NameError], but only after the delete: a collection that existed under
    the name is gone with its points, none is created in its place, and the
    other collections are untouched. *)
Theorem ensure_collection_without_dimension (name : string) (s : State) :
  embedding_dimension (globals s) = None ->
  exists s',
    ensure_collection name s = Raised (NameError "embedding_dimension") s'
    /\ globals s' = globals s
    /\ qdrant (world s') !! name = None
    /\ (forall other, other <> name ->
          qdrant (world s') !! other = qdrant (world s) !! other)
    /\ trace (world s')
       = trace (world s)
         ++ match qdrant (world s) !! name with
            | Some _ => [DeleteCollection name;
                         Print ("🗑️ Deleted existing collection: " +:+ name)]
            | None => []
            end.
Proof.
  intros Hd. destruct s as [g w]. destruct g, w. run in Hd. subst.
  unfold ensure_collection. run.
  destruct (qdrant0 !! name) as [c|] eqn:Hc.
  - assert (Py.contains name (Qdrant.get_collections qdrant0) = true) as ->
      by (apply get_collections_spec; eauto).
    eexists. split; [reflexivity |]. cbn. unfold Qdrant.delete_collection.
    split; [reflexivity |]. split; [apply lookup_delete_eq |].
    split; [intros other Hne; by apply lookup_delete_ne |].
    by rewrite <- app_assoc.
  - destruct (Py.contains name (Qdrant.get_collections qdrant0)) eqn:E.
    { apply get_collections_spec in E as [c Hc']. congruence. }
    eexists. split; [reflexivity |]. cbn.
    split; [reflexivity |]. split; [exact Hc |]. split; [done |].
    by rewrite app_nil_r.
Qed.

Lemma ensure_collection_without_dimension_witness :
  embedding_dimension (globals (Sample.start Sample.world_stale)) = None
  /\ exists s',
       ensure_collection "pdf_documents" (Sample.start Sample.world_stale)
       = Raised (NameError "embedding_dimension") s'
       /\ globals s' = globals (Sample.start Sample.world_stale)
       /\ qdrant (world s') !! "pdf_documents" = None
       /\ (forall other, other <> "pdf_documents" ->
             qdrant (world s') !! other
             = qdrant (world (Sample.start Sample.world_stale)) !! other)
       /\ trace (world s')
          = trace (world (Sample.start Sample.world_stale))
            ++ match qdrant (world (Sample.start Sample.world_stale))
                     !! "pdf_documents" with
               | Some _ => [DeleteCollection "pdf_documents";
                            Print ("🗑️ Deleted existing collection: "
                                   +:+ "pdf_documents")]
               | None => []
               end.
Proof.
  split; [reflexivity |].
  apply (ensure_collection_without_dimension "pdf_documents"
           (Sample.start Sample.world_stale)).
  reflexivity.
Defined.

(** ** A file the loader cannot read *)

(** X12: an unreadable PDF stops the whole run.  When a key is found and the
    loader raises on a matching entry of the folder (after reading the
    matching entries before it), the notebook ends with that exception in
    cell 6: the collection was created and stays empty, the chunks read so
    far are in [documents] and the failing entry is counted, but nothing is
    embedded or upserted, neither the prompt nor the vector store nor the
    chain is bound, and no line of standard input is read. *)
Theorem loader_failure_stops_run {services : Services} (w : World) (v : string)
    (pre post : list string) (fname : string) (e : Exn) :
  load_dotenv (environ w) !! "GOOGLE_API_KEY" = Some v ->
  pdfs w = Some (pre ++ fname :: post) ->
  (forall earlier,
     In earlier pre -> Py.endswith (Py.lower earlier) ".pdf" = true ->
     exists pages,
       load_and_split (folder_path +:+ "/" +:+ earlier) 1000 200 = inr pages) ->
  Py.endswith (Py.lower fname) ".pdf" = true ->
  load_and_split (folder_path +:+ "/" +:+ fname) 1000 200 = inl e ->
  exists s' events,
    notebook (mkState fresh_globals w) = Raised e s'
    /\ documents (globals s') = Some (chunks_of pre)
    /\ pdf_files (globals s') = Some (length (List.filter is_pdf pre) + 1)
    /\ prompt (globals s') = None
    /\ vectorstore (globals s') = None
    /\ qa_chain (globals s') = None
    /\ qdrant (world s') !! "pdf_documents"
       = Some (mkCollection get_sentence_embedding_dimension COSINE [])
    /\ stdin (world s') = stdin w
    /\ trace (world s') = trace w ++ events
    /\ last events
       = Some (LoadAndSplit (folder_path +:+ "/" +:+ fname) 1000 200)
    /\ no_indexing events
    /\ no_pipeline_call events.
Proof.
  intros Hk Hf Hok Hpdf Hl.
  pose proof (setup_load_fails w v pre post fname e Hk Hf Hok Hpdf Hl) as Hrun.
  eexists _, (startup_events v (qdrant w)
              ++ flat_map loading_events (List.filter is_pdf pre)
              ++ loading_events fname).
  split; [unfold notebook; by rewrite (bind_raised _ _ _ _ _ Hrun) |].
  cbn [globals world documents pdf_files prompt vectorstore qa_chain qdrant stdin
       trace].
  repeat split.
  - apply lookup_insert_eq.
  - unfold loading_events.
    change [Print ("Loading " +:+ fname +:+ "...");
            LoadAndSplit (folder_path +:+ "/" +:+ fname) chunk_size chunk_overlap]
      with ([Print ("Loading " +:+ fname +:+ "...")]
            ++ [LoadAndSplit (folder_path +:+ "/" +:+ fname) 1000 200]).
    rewrite !app_assoc. apply last_snoc.
  - apply no_indexing_forallb. rewrite !forallb_app.
    unfold startup_events, ensure_events. rewrite !forallb_app.
    repeat (apply andb_true_intro; split); try reflexivity.
    + by destruct (Py.contains _ _).
    + clear. induction (List.filter is_pdf pre) as [|f fs IH]; [reflexivity | exact IH].
  - apply no_pipeline_call_forallb. rewrite !forallb_app.
    unfold startup_events, ensure_events. rewrite !forallb_app.
    repeat (apply andb_true_intro; split); try reflexivity.
    + by destruct (Py.contains _ _).
    + clear. induction (List.filter is_pdf pre) as [|f fs IH]; [reflexivity | exact IH].
Qed.

Lemma loader_failure_stops_run_witness :
  load_dotenv (Services := Sample.fragile_services) (environ Sample.world_bad_pdf)
    !! "GOOGLE_API_KEY" = Some "k"
  /\ pdfs Sample.world_bad_pdf = Some (["one.pdf"] ++ "bad.pdf" :: ["Two.PDF"])
  /\ (forall earlier,
        In earlier ["one.pdf"] -> Py.endswith (Py.lower earlier) ".pdf" = true ->
        exists pages,
          load_and_split (Services := Sample.fragile_services)
            (folder_path +:+ "/" +:+ earlier) 1000 200 = inr pages)
  /\ Py.endswith (Py.lower "bad.pdf") ".pdf" = true
  /\ load_and_split (Services := Sample.fragile_services)
       (folder_path +:+ "/" +:+ "bad.pdf") 1000 200
     = inl (PdfReadError "Stream has ended unexpectedly")
  /\ exists s',
       notebook (services := Sample.fragile_services)
         (mkState fresh_globals Sample.world_bad_pdf)
       = Raised (PdfReadError "Stream has ended unexpectedly") s'
       /\ pdf_files (globals s') = Some 2
       /\ vectorstore (globals s') = None
       /\ qa_chain (globals s') = None
       /\ stdin (world s') = ["q"].
Proof.
  assert (forall earlier,
            In earlier ["one.pdf"] ->
            Py.endswith (Py.lower earlier) ".pdf" = true ->
            exists pages,
              load_and_split (Services := Sample.fragile_services)
                (folder_path +:+ "/" +:+ earlier) 1000 200 = inr pages) as Hok
    by (intros earlier [<- | []] _; eexists; reflexivity).
  split; [reflexivity |]. split; [reflexivity |]. split; [exact Hok |].
  split; [reflexivity |]. split; [reflexivity |].
  destruct (loader_failure_stops_run (services := Sample.fragile_services)
              Sample.world_bad_pdf "k" ["one.pdf"] ["Two.PDF"] "bad.pdf"
              (PdfReadError "Stream has ended unexpectedly")
              eq_refl eq_refl Hok eq_refl eq_refl)
    as (s' & events & Hrun & _ & Hn & _ & Hvs & Hq & _ & Hin & _).
  exists s'. repeat split; assumption.
Defined.

(** ** The exit test does not trim *)

(** X11: the loop compares the whole line.  A line with a blank before or
    after a sentinel word (["exit "], [" q"]) is not a sentinel: it does not
    end the session and is handed on as a question; a sentinel is always one
    or four characters long. *)
Theorem exit_test_does_not_trim (line : string) :
  ~ is_sentinel (" " +:+ line)
  /\ ~ is_sentinel (line +:+ " ")
  /\ (is_sentinel line -> String.length line = 1 \/ String.length line = 4).
Proof.
  assert (forall t, In t sentinels -> Py.lower t = t) as Hlow.
  { intros t Ht. simpl in Ht. by destruct Ht as [<- | [<- | [<- | []]]]. }
  assert (forall s, String.length (Py.lower s) = String.length s) as Hlen.
  { induction s as [|c s IH]; simpl; [done | by rewrite IH]. }
  repeat split.
  - intros (t & Ht & E). unfold eq_ignore_case in E. rewrite (Hlow t Ht) in E.
    simpl in Ht. destruct Ht as [<- | [<- | [<- | []]]]; discriminate.
  - intros (t & Ht & E). unfold eq_ignore_case in E.
    rewrite (Hlow t Ht), lower_append in E. change (Py.lower " ") with " " in E.
    simpl in Ht.
    destruct Ht as [<- | [<- | [<- | []]]];
      destruct (Py.lower line) as [|c1 [|c2 [|c3 [|c4 [|c5 l]]]]];
      discriminate.
  - intros (t & Ht & E). unfold eq_ignore_case in E. rewrite (Hlow t Ht) in E.
    rewrite <- (Hlen line), E. simpl in Ht.
    destruct Ht as [<- | [<- | [<- | []]]]; simpl; auto.
Qed.

Lemma exit_test_does_not_trim_witness :
  is_sentinel "Quit"
  /\ (String.length "Quit" = 1 \/ String.length "Quit" = 4)
  /\ ~ is_sentinel (" " +:+ "Quit")
  /\ ~ is_sentinel ("Quit" +:+ " ").
Proof.
  assert (is_sentinel "Quit") as Hq by (apply exit_test_spec; reflexivity).
  split; [exact Hq |].
  destruct (exit_test_does_not_trim "Quit") as (Hpre & Hpost & Hlen).
  split; [exact (Hlen Hq) |]. split; [exact Hpre | exact Hpost].
Defined.
